(** * Cart-to-order core of the VibeFashion backend

    A shallow embedding of the cart and order handlers of
    [src/backend/main.py] (get_cart, add_to_cart, create_order) together with
    the [Order] schema of [src/backend/schemas.py], over an explicit model
    of the document store the handlers talk to. *)

From Stdlib Require Import List ZArith NArith Bool String Ascii Lia PrimFloat.
Import ListNotations.
Local Open Scope string_scope.
Local Open Scope list_scope.
Local Open Scope Z_scope.

Set Warnings "-register-all".

(** ** Values *)

(** Python dictionaries that the handlers only pass through (order lines,
    the delivery address) are kept as JSON-like values. *)
Inductive json : Type :=
| JNull
| JBool (b : bool)
| JInt (z : Z)
| JFloat (f : float)
| JStr (s : string)
| JList (l : list json)
| JDict (kv : list (string * json)).

Definition dict : Type := list (string * json).

(** A store identifier ([bson.ObjectId]): a 12-byte value, kept as its
    numeric value. *)
Definition ObjectId : Type := N.

Definition hex_char (d : N) : ascii :=
  match d with
  | 0%N => "0" | 1%N => "1" | 2%N => "2" | 3%N => "3"
  | 4%N => "4" | 5%N => "5" | 6%N => "6" | 7%N => "7"
  | 8%N => "8" | 9%N => "9" | 10%N => "a" | 11%N => "b"
  | 12%N => "c" | 13%N => "d" | 14%N => "e" | _ => "f"
  end%char.

Fixpoint hex_digits (n : nat) (v : N) : string :=
  match n with
  | O => ""
  | S k => (hex_digits k (v / 16)%N ++ String (hex_char (v mod 16)%N) "")%string
  end.

(** [str(oid)]: the 24 lower-case hexadecimal digits of the identifier. *)
Definition str (oid : ObjectId) : string := hex_digits 24 oid.

(** ** Documents and payloads *)

(** A cart line, [{"product_id": ..., "qty": ...}]; [qty] is a Python
    [int], unbounded. *)
Module Item.
Record t : Type := mk { product_id : string; qty : Z }.
End Item.

(** The dictionary [c] / [cart] the cart handlers work on.  A dictionary
    read from the store carries its [_id]; one built by the handler
    does not (until [insert_one] adds it). *)
Module Cart.
Record t : Type := mk {
  _id : option ObjectId;
  user_id : string;
  items : list Item.t
}.
End Cart.

(** A document of the [cart] collection. *)
Module CartDoc.
Record t : Type := mk {
  _id : ObjectId;
  user_id : string;
  items : list Item.t
}.
End CartDoc.

(** [class CartItemPayload(BaseModel)], main.py:189. *)
Module CartItemPayload.
Record t : Type := mk {
  user_id : string;
  product_id : string;
  qty : Z
}.
End CartItemPayload.

(** [class CreateOrderPayload(BaseModel)], main.py:222.  The class has no
    [status] field: a [status] key of the request body is dropped by the
    validation and never reaches the handler. *)
Module CreateOrderPayload.
Record t : Type := mk {
  user_id : string;
  items : list dict;
  total : float;
  payment_method : string;
  address : dict
}.
End CreateOrderPayload.

(** [class Order(BaseModel)], schemas.py:46. *)
Module Order.
Record t : Type := mk {
  user_id : string;
  items : list dict;
  total : float;
  status : string;
  payment_method : string;
  address : dict
}.
End Order.

(** A document of the [order] collection. *)
Module OrderDoc.
Record t : Type := mk {
  _id : ObjectId;
  body : Order.t
}.
End OrderDoc.

(** The body returned by [get_cart]: the cart dictionary with [_id]
    replaced by [id]. *)
Module CartResponse.
Record t : Type := mk {
  user_id : string;
  items : list Item.t;
  id : option string
}.
End CartResponse.

(** The body returned by [create_order]. *)
Module OrderResponse.
Record t : Type := mk { order_id : string; status : string }.
End OrderResponse.

(** ** The document store *)

(** The two collections the core touches, and the counter the store draws
    fresh identifiers from. *)
Record Database : Type := {
  cart : list CartDoc.t;
  order : list OrderDoc.t;
  next_oid : N
}.

(** The module-level handle [db] is [None] when the store is not
    configured (the sibling handlers test [db is None]).  [faults] is the
    fate of the coming store calls: each call consumes one entry, and
    [true] makes that call raise without touching the store. *)
Record World : Type := {
  db : option Database;
  faults : list bool
}.

Inductive exn : Type :=
| TypeError          (* [db["cart"]] with [db] being [None] *)
| StoreUnavailable   (* the store did not answer the call *)
| WriteError.        (* the store refused the update *)

(** Handlers are state transformers that either raise or return. *)
Definition M (A : Type) : Type := World -> (exn + A) * World.

Definition ret {A} (a : A) : M A := fun w => (inr a, w).

Definition bind {A B} (m : M A) (k : A -> M B) : M B :=
  fun w =>
    match m w with
    | (inl e, w') => (inl e, w')
    | (inr a, w') => k a w'
    end.

Notation "x <- m ;; k" := (bind m (fun x => k))
  (at level 61, m at next level, right associativity).
Notation "m ;;; k" := (bind m (fun _ => k))
  (at level 61, right associativity).

(** The fate of the next store call, and of the first [n] ones. *)
Definition next_fault (fs : list bool) : bool :=
  match fs with
  | b :: _ => b
  | [] => false
  end.

Fixpoint quiet (n : nat) (fs : list bool) : bool :=
  match n with
  | O => true
  | S k => negb (next_fault fs) && quiet k (tl fs)
  end.

(** One round trip to the store through [db[...]]. *)
Definition store_call {A} (f : Database -> (exn + A) * Database) : M A :=
  fun w =>
    match db w with
    | None => (inl TypeError, w)
    | Some d =>
        if next_fault (faults w) then
          (inl StoreUnavailable, {| db := Some d; faults := tl (faults w) |})
        else
          let (r, d') := f d in (r, {| db := Some d'; faults := tl (faults w) |})
    end.

(** [find_one({"user_id": uid})] on a list of cart documents: the first
    document in store order with that user id. *)
Definition find_cart (uid : string) (cs : list CartDoc.t) : option CartDoc.t :=
  find (fun c => String.eqb (CartDoc.user_id c) uid) cs.

(** [insert_one] of a dictionary without [_id]: the store assigns a fresh
    identifier and appends the document. *)
Definition insert_cart (uid : string) (its : list Item.t) (d : Database)
  : ObjectId * Database :=
  let oid := next_oid d in
  (oid, {| cart := cart d ++ [CartDoc.mk oid uid its];
           order := order d;
           next_oid := N.succ oid |}).

(** The [$set] document of the two [update_one] calls: [items] is always
    set; [_id] and [user_id] are set when the whole dictionary [c] is
    written back. *)
Record SetDoc : Type := {
  set_id : option ObjectId;
  set_user_id : option string;
  set_items : list Item.t
}.

(** [$set] on a matched document.  [_id] is immutable: setting it to its
    current value is accepted, to another value refused. *)
Definition apply_set (s : SetDoc) (c : CartDoc.t) : exn + CartDoc.t :=
  let c' := CartDoc.mk (CartDoc._id c)
              (match set_user_id s with Some u => u | None => CartDoc.user_id c end)
              (set_items s) in
  match set_id s with
  | None => inr c'
  | Some i => if N.eqb i (CartDoc._id c) then inr c' else inl WriteError
  end.

(** [update_one] on a list of documents: only the first match is
    updated.  [None] when no document matches. *)
Fixpoint update_first (uid : string) (s : SetDoc) (cs : list CartDoc.t)
  : option (exn + list CartDoc.t) :=
  match cs with
  | [] => None
  | c :: rest =>
      if String.eqb (CartDoc.user_id c) uid then
        Some (match apply_set s c with
              | inl e => inl e
              | inr c' => inr (c' :: rest)
              end)
      else
        match update_first uid s rest with
        | None => None
        | Some (inl e) => Some (inl e)
        | Some (inr rest') => Some (inr (c :: rest'))
        end
  end.

(** [update_one({"user_id": uid}, {"$set": s}, upsert=True)]: without a
    match, a document is built from the filter and the [$set] fields and
    inserted. *)
Definition update_cart (uid : string) (s : SetDoc) (d : Database)
  : (exn + unit) * Database :=
  match update_first uid s (cart d) with
  | Some (inl e) => (inl e, d)
  | Some (inr cs) =>
      (inr tt, {| cart := cs; order := order d; next_oid := next_oid d |})
  | None =>
      let u := match set_user_id s with Some u => u | None => uid end in
      match set_id s with
      | Some i =>
          (inr tt, {| cart := cart d ++ [CartDoc.mk i u (set_items s)];
                      order := order d;
                      next_oid := next_oid d |})
      | None =>
          (inr tt, {| cart := cart d ++ [CartDoc.mk (next_oid d) u (set_items s)];
                      order := order d;
                      next_oid := N.succ (next_oid d) |})
      end
  end.

(** [insert_one] on the [order] collection. *)
Definition insert_order (o : Order.t) (d : Database) : ObjectId * Database :=
  let oid := next_oid d in
  (oid, {| cart := cart d;
           order := order d ++ [OrderDoc.mk oid o];
           next_oid := N.succ oid |}).

(** [find_one({"_id": oid})] on the [order] collection. *)
Definition find_order (oid : ObjectId) (d : Database) : option OrderDoc.t :=
  find (fun o => N.eqb (OrderDoc._id o) oid) (order d).

(** The store calls of the handlers. *)
Definition find_one (uid : string) : M (option CartDoc.t) :=
  store_call (fun d => (inr (find_cart uid (cart d)), d)).

Definition insert_one (uid : string) (its : list Item.t) : M ObjectId :=
  store_call (fun d => let (oid, d') := insert_cart uid its d in (inr oid, d')).

Definition update_one (uid : string) (s : SetDoc) : M unit :=
  store_call (update_cart uid s).

(** Modelled from the spec: [create_document] of the [database] module,
    which is not part of the sources, at the collection ["order"].  The
    order is persisted by a single atomic write that yields a newly
    generated identifier, returned as a plain string; an unconfigured or
    unreachable store makes the call fail with a store error and leaves
    the store as it was. *)
Definition create_document (data : Order.t) : M string :=
  fun w =>
    match db w with
    | None => (inl StoreUnavailable, w)
    | Some d =>
        if next_fault (faults w) then
          (inl StoreUnavailable, {| db := Some d; faults := tl (faults w) |})
        else
          let (oid, d') := insert_order data d in
          (inr (str oid), {| db := Some d'; faults := tl (faults w) |})
    end.

(** ** The handlers *)

(** The dictionary [find_one] hands back for a stored document. *)
Definition dict_of_doc (c : CartDoc.t) : Cart.t :=
  Cart.mk (Some (CartDoc._id c)) (CartDoc.user_id c) (CartDoc.items c).

(** [get_cart], main.py:194. *)
Definition get_cart (user_id : string) : M CartResponse.t :=
  found <- find_one user_id ;;
  cart <- match found with
          | Some c => ret (dict_of_doc c)
          | None =>
              oid <- insert_one user_id [] ;;
              ret (Cart.mk (Some oid) user_id [])
          end ;;
  ret (CartResponse.mk (Cart.user_id cart) (Cart.items cart)
         (match Cart._id cart with
          | Some oid => Some (str oid)
          | None => None
          end)).

(** The loop of [add_to_cart], main.py:209-214: the first line with the
    product id gets the quantity added and the scan stops; the flag tells
    whether a line was found. *)
Fixpoint scan (its : list Item.t) (product_id : string) (qty : Z)
  : list Item.t * bool :=
  match its with
  | [] => ([], false)
  | it :: rest =>
      if String.eqb (Item.product_id it) product_id then
        (Item.mk (Item.product_id it) (Item.qty it + qty) :: rest, true)
      else
        let (rest', found) := scan rest product_id qty in
        (it :: rest', found)
  end.

(** main.py:209-216 on the items of [c]. *)
Definition upsert_product (its : list Item.t) (product_id : string) (qty : Z)
  : list Item.t :=
  let (its', found) := scan its product_id qty in
  if found then its' else its' ++ [Item.mk product_id qty].

(** main.py:206-216: the dictionary written back, from what [find_one]
    returned. *)
Definition merged_cart (found : option CartDoc.t) (body : CartItemPayload.t)
  : Cart.t :=
  let c := match found with
           | Some c => dict_of_doc c
           | None => Cart.mk None (CartItemPayload.user_id body) []
           end in
  Cart.mk (Cart._id c) (Cart.user_id c)
    (upsert_product (Cart.items c) (CartItemPayload.product_id body)
       (CartItemPayload.qty body)).

Definition set_of_cart (c : Cart.t) : SetDoc :=
  {| set_id := Cart._id c;
     set_user_id := Some (Cart.user_id c);
     set_items := Cart.items c |}.

(** [add_to_cart], main.py:203; the result stands for [{"ok": True}]. *)
Definition add_to_cart (body : CartItemPayload.t) : M bool :=
  found <- find_one (CartItemPayload.user_id body) ;;
  update_one (CartItemPayload.user_id body)
    (set_of_cart (merged_cart found body)) ;;;
  ret true.

(** [OrderSchema(user_id=..., items=..., total=..., payment_method=...,
    address=...)]: [status] is not passed and takes its default. *)
Definition OrderSchema (user_id : string) (items : list dict) (total : float)
    (payment_method : string) (address : dict) : Order.t :=
  Order.mk user_id items total "new" payment_method address.

(** [{"$set": {"items": []}}]. *)
Definition clear_items : SetDoc :=
  {| set_id := None; set_user_id := None; set_items := [] |}.

(** [create_order], main.py:229. *)
Definition create_order (body : CreateOrderPayload.t) : M OrderResponse.t :=
  let order := OrderSchema (CreateOrderPayload.user_id body)
                 (CreateOrderPayload.items body)
                 (CreateOrderPayload.total body)
                 (CreateOrderPayload.payment_method body)
                 (CreateOrderPayload.address body) in
  oid <- create_document order ;;
  update_one (CreateOrderPayload.user_id body) clear_items ;;;
  ret (OrderResponse.mk oid "new").

(** ** Sequences of requests *)

Inductive op : Type :=
| GetCart (user_id : string)
| AddItem (body : CartItemPayload.t)
| CreateOrder (body : CreateOrderPayload.t).

(** The world a request leaves behind, whether it returned or raised. *)
Definition exec (o : op) (w : World) : World :=
  match o with
  | GetCart u => snd (get_cart u w)
  | AddItem b => snd (add_to_cart b w)
  | CreateOrder b => snd (create_order b w)
  end.

Definition run (ops : list op) (w : World) : World :=
  fold_left (fun w o => exec o w) ops w.

Definition empty_db : Database := {| cart := []; order := []; next_oid := 0 |}.

Definition fresh_world (fs : list bool) : World :=
  {| db := Some empty_db; faults := fs |}.

(** The cart lines stored for a user, [[]] when there is no document. *)
Definition items_of (uid : string) (d : Database) : list Item.t :=
  match find_cart uid (cart d) with
  | Some c => CartDoc.items c
  | None => []
  end.

(** The scenario of the specification. *)
Definition u1_order : CreateOrderPayload.t :=
  CreateOrderPayload.mk "u1"
    [[("product_id", JStr "p1"); ("qty", JInt 5); ("price", JInt 10)]]
    50%float "cod" [("city", JStr "Bandung")].

(** ** Requests served at once *)

(** A request of [add_to_cart] in flight: before its [find_one], between
    its two store calls (holding what [find_one] returned), and done. *)
Inductive thread : Type :=
| Ready (body : CartItemPayload.t)
| Fetched (body : CartItemPayload.t) (found : option CartDoc.t)
| Returned (r : exn + bool).

(** The next store call of a request; the code between two store calls
    touches only the dictionary of the request. *)
Definition thread_step (t : thread) (w : World) : thread * World :=
  match t with
  | Ready body =>
      match find_one (CartItemPayload.user_id body) w with
      | (inl e, w') => (Returned (inl e), w')
      | (inr found, w') => (Fetched body found, w')
      end
  | Fetched body found =>
      match update_one (CartItemPayload.user_id body)
              (set_of_cart (merged_cart found body)) w with
      | (inl e, w') => (Returned (inl e), w')
      | (inr _, w') => (Returned (inr true), w')
      end
  | Returned r => (Returned r, w)
  end.

(** Two requests served at once: the schedule says whose store call
    reaches the store next ([false] the first request, [true] the
    second). *)
Fixpoint interleave (sched : list bool) (t1 t2 : thread) (w : World)
  : thread * thread * World :=
  match sched with
  | [] => (t1, t2, w)
  | false :: s => let (t1', w') := thread_step t1 w in interleave s t1' t2 w'
  | true :: s => let (t2', w') := thread_step t2 w in interleave s t1 t2' w'
  end.

Definition one_p1 : CartItemPayload.t := CartItemPayload.mk "u1" "p1" 1.

(** ** Vocabulary of the properties *)

Definition has_product (product_id : string) (it : Item.t) : bool :=
  String.eqb (Item.product_id it) product_id.

Definition other_product (product_id : string) (it : Item.t) : bool :=
  negb (has_product product_id it).

Definition product_ids (its : list Item.t) : list string :=
  map Item.product_id its.

Definition other_user (uid : string) (c : CartDoc.t) : Prop :=
  CartDoc.user_id c <> uid.

Definition uid_of (body : CartItemPayload.t) : string :=
  CartItemPayload.user_id body.

Definition order_of (body : CreateOrderPayload.t) : Order.t :=
  OrderSchema (CreateOrderPayload.user_id body) (CreateOrderPayload.items body)
    (CreateOrderPayload.total body) (CreateOrderPayload.payment_method body)
    (CreateOrderPayload.address body).

(** The store after each of the writes the handlers issue. *)
Definition created (uid : string) (d : Database) : Database :=
  snd (insert_cart uid [] d).

Definition added (body : CartItemPayload.t) (d : Database) : Database :=
  snd (update_cart (uid_of body)
         (set_of_cart (merged_cart (find_cart (uid_of body) (cart d)) body)) d).

Definition ordered (o : Order.t) (d : Database) : Database :=
  snd (insert_order o d).

Definition cleared (uid : string) (d : Database) : Database :=
  snd (update_cart uid clear_items d).

(** The identifier and the lines of the document [add_to_cart] writes. *)
Definition merged_id (body : CartItemPayload.t) (d : Database) : ObjectId :=
  match find_cart (uid_of body) (cart d) with
  | Some c => CartDoc._id c
  | None => next_oid d
  end.

Definition merged_items (body : CartItemPayload.t) (d : Database) : list Item.t :=
  upsert_product (items_of (uid_of body) d)
    (CartItemPayload.product_id body) (CartItemPayload.qty body).

(** The world after [n] store calls that left the store as [d]. *)
Definition served (n : nat) (w : World) (d : Database) : World :=
  {| db := Some d; faults := Nat.iter n (@tl bool) (faults w) |}.

(** What one request, served or failed, may have done to the store. *)
Inductive effect : op -> Database -> Database -> Prop :=
| effect_none o d : effect o d d
| effect_created u d :
    find_cart u (cart d) = None -> effect (GetCart u) d (created u d)
| effect_added b d : effect (AddItem b) d (added b d)
| effect_ordered b d : effect (CreateOrder b) d (ordered (order_of b) d)
| effect_cleared b d :
    effect (CreateOrder b) d
      (cleared (CreateOrderPayload.user_id b) (ordered (order_of b) d)).

(** A property of the store, read on a world; an unconfigured store has
    no documents at all. *)
Definition holds (P : Database -> Prop) (w : World) : Prop :=
  match db w with
  | Some d => P d
  | None => True
  end.

Definition any_op (o : op) : Prop := True.

(** One cart document per user. *)
Definition users (d : Database) : list string := map CartDoc.user_id (cart d).

Definition one_cart_per_user (d : Database) : Prop := NoDup (users d).

(** A property of the lines of every cart document. *)
Definition lines (R : list Item.t -> Prop) (d : Database) : Prop :=
  Forall (fun c => R (CartDoc.items c)) (cart d).

(** The invariant of the data model, in its two halves. *)
Definition unique_products (its : list Item.t) : Prop := NoDup (product_ids its).

Definition positive_qty (its : list Item.t) : Prop :=
  Forall (fun it => 1 <= Item.qty it) its.

Definition cart_invariant (d : Database) : Prop :=
  lines unique_products d /\ lines positive_qty d.

(** An [add_to_cart] request with a quantity of at least one. *)
Definition positive_add (o : op) : Prop :=
  match o with
  | AddItem b => 1 <= CartItemPayload.qty b
  | _ => True
  end.

(** Identifiers come from the counter: those in use lie below it. *)
Definition order_ids_fresh (d : Database) : Prop :=
  Forall (fun o => (OrderDoc._id o < next_oid d)%N) (order d).

(** A store holding one cart, of user [u1], with two [p1] in it. *)
Definition store_u1 : Database :=
  {| cart := [CartDoc.mk 0%N "u1" [Item.mk "p1" 2]];
     order := [];
     next_oid := 1%N |}.

Definition world_u1 : World := {| db := Some store_u1; faults := [] |}.

Definition world_u1_down : World := {| db := Some store_u1; faults := [true] |}.

(** An order request with a negative total. *)
Definition negative_order : CreateOrderPayload.t :=
  CreateOrderPayload.mk "u1"
    [[("product_id", JStr "p1"); ("qty", JInt 5); ("price", JInt 10)]]
    (-50)%float "cod" [("city", JStr "Bandung")].

(** ** Quantities in a cart *)

(** The quantity a cart holds of a product, over all its lines. *)
Fixpoint qty_total (product_id : string) (its : list Item.t) : Z :=
  match its with
  | [] => 0
  | it :: rest =>
      (if has_product product_id it then Item.qty it else 0)
      + qty_total product_id rest
  end.

(** The quantity of a product that a sequence of requests asks to add to
    the cart of a user. *)
Fixpoint requested (uid pid : string) (ops : list op) : Z :=
  match ops with
  | [] => 0
  | AddItem b :: rest =>
      (if String.eqb (CartItemPayload.user_id b) uid
          && String.eqb (CartItemPayload.product_id b) pid
       then CartItemPayload.qty b else 0)
      + requested uid pid rest
  | _ :: rest => requested uid pid rest
  end.

(** A request that is not an order of the user. *)
Definition no_order_of (uid : string) (o : op) : Prop :=
  match o with
  | CreateOrder b => CreateOrderPayload.user_id b <> uid
  | _ => True
  end.

(** The store after a request all of whose store calls are served. *)
Definition after (o : op) (d : Database) : Database :=
  match o with
  | GetCart u =>
      match find_cart u (cart d) with
      | Some _ => d
      | None => created u d
      end
  | AddItem b => added b d
  | CreateOrder b =>
      cleared (CreateOrderPayload.user_id b) (ordered (order_of b) d)
  end.

(** A store with two carts: [u1] holds two [p1] and one [p2], [u2] holds
    four [p1]. *)
Definition store_two : Database :=
  {| cart := [CartDoc.mk 0%N "u1" [Item.mk "p1" 2; Item.mk "p2" 1];
              CartDoc.mk 1%N "u2" [Item.mk "p1" 4]];
     order := [];
     next_oid := 2%N |}.

Definition world_two : World := {| db := Some store_two; faults := [] |}.

(** ** Two requests of one user on a store without a cart of theirs *)

(** The line a request asks for. *)
Definition line_of (b : CartItemPayload.t) : Item.t :=
  Item.mk (CartItemPayload.product_id b) (CartItemPayload.qty b).

(** The store [d] with a cart document of the user appended. *)
Definition with_cart (d : Database) (uid : string) (its : list Item.t)
  : Database :=
  {| cart := cart d ++ [CartDoc.mk (next_oid d) uid its];
     order := order d;
     next_oid := N.succ (next_oid d) |}.

(** A world whose store calls are all served. *)
Definition calm (d : Database) : World := {| db := Some d; faults := [] |}.

(** The four carts two requests can end with: one merged into the other,
    either way round, or the line of one of them alone. *)
Definition race_outcomes (b1 b2 : CartItemPayload.t) : list (list Item.t) :=
  [upsert_product [line_of b1] (CartItemPayload.product_id b2)
     (CartItemPayload.qty b2);
   upsert_product [line_of b2] (CartItemPayload.product_id b1)
     (CartItemPayload.qty b1);
   [line_of b1];
   [line_of b2]].

(** The states two requests [b1] and [b2] of one user go through, from a
    store [d] that has no cart of the user. *)
Inductive race (b1 b2 : CartItemPayload.t) (d : Database)
  : thread -> thread -> Database -> Prop :=
| race_start : race b1 b2 d (Ready b1) (Ready b2) d
| race_read1 : race b1 b2 d (Fetched b1 None) (Ready b2) d
| race_read2 : race b1 b2 d (Ready b1) (Fetched b2 None) d
| race_read_both : race b1 b2 d (Fetched b1 None) (Fetched b2 None) d
| race_done1 :
    race b1 b2 d (Returned (inr true)) (Ready b2)
      (with_cart d (CartItemPayload.user_id b1) [line_of b1])
| race_done2 :
    race b1 b2 d (Ready b1) (Returned (inr true))
      (with_cart d (CartItemPayload.user_id b1) [line_of b2])
| race_stale2 :
    race b1 b2 d (Returned (inr true)) (Fetched b2 None)
      (with_cart d (CartItemPayload.user_id b1) [line_of b1])
| race_stale1 :
    race b1 b2 d (Fetched b1 None) (Returned (inr true))
      (with_cart d (CartItemPayload.user_id b1) [line_of b2])
| race_seen2 :
    race b1 b2 d (Returned (inr true))
      (Fetched b2 (Some (CartDoc.mk (next_oid d) (CartItemPayload.user_id b1)
                           [line_of b1])))
      (with_cart d (CartItemPayload.user_id b1) [line_of b1])
| race_seen1 :
    race b1 b2 d
      (Fetched b1 (Some (CartDoc.mk (next_oid d) (CartItemPayload.user_id b1)
                           [line_of b2])))
      (Returned (inr true))
      (with_cart d (CartItemPayload.user_id b1) [line_of b2])
| race_end its :
    In its (race_outcomes b1 b2) ->
    race b1 b2 d (Returned (inr true)) (Returned (inr true))
      (with_cart d (CartItemPayload.user_id b1) its).

(** ** Accounts: the [user] collection, [register] and [login] *)

(** [class User(BaseModel)], schemas.py:9. *)
Module User.
Record t : Type := mk {
  email : string;
  password_hash : string;
  name : string;
  role : string;
  avatar : option string;
  phone : option string;
  addresses : list dict;
  is_active : bool
}.
End User.

(** A document of the [user] collection. *)
Module UserDoc.
Record t : Type := mk {
  _id : ObjectId;
  body : User.t
}.
End UserDoc.

(** [class RegisterPayload(BaseModel)], main.py:41. *)
Module RegisterPayload.
Record t : Type := mk {
  email : string;
  password : string;
  name : string
}.
End RegisterPayload.

(** [class LoginPayload(BaseModel)], main.py:46. *)
Module LoginPayload.
Record t : Type := mk {
  email : string;
  password : string
}.
End LoginPayload.

(** The body returned by [register]. *)
Module RegisterResponse.
Record t : Type := mk {
  user_id : string;
  email : string;
  name : string
}.
End RegisterResponse.

(** The body returned by [login]. *)
Module LoginResponse.
Record t : Type := mk {
  user_id : string;
  email : string;
  name : string;
  role : string
}.
End LoginResponse.

(** [class Product(BaseModel)], schemas.py:20. *)
Module Product.
Record t : Type := mk {
  title : string;
  description : option string;
  price : float;
  category : string;
  images : list string;
  rating : float;
  reviews : Z;
  stock : Z;
  colors : list string;
  sizes : list string;
  seller_id : option string;
  sale_price : option float;
  tags : list string
}.
End Product.

(** A document of the [product] collection: the fields of the model and
    the keys written beside them. *)
Module ProductDoc.
Record t : Type := mk {
  _id : ObjectId;
  body : Product.t;
  extra : dict
}.
End ProductDoc.

(** The database with its [user] and [product] collections beside the
    collections of the cart and order handlers; identifiers come from the
    same counter. *)
Record Site : Type := {
  core : World;
  user : list UserDoc.t;
  product : list ProductDoc.t
}.

(** What a request ends with when it does not return: an [HTTPException]
    of the handler, the refusal of a body that fails the constraints of
    its model, or what a store call raised. *)
Inductive error : Type :=
| HTTPException (status_code : Z) (detail : string)
| RequestValidationError
| Raised (e : exn).

Definition H (A : Type) : Type := Site -> (error + A) * Site.

(** [db["user"].find_one({"email": email})] on a list of documents. *)
Definition find_user (email : string) (us : list UserDoc.t) : option UserDoc.t :=
  find (fun x => String.eqb (User.email (UserDoc.body x)) email) us.

(** The site after a store call that took its turn in the fault schedule
    and left the store as [d] and the users as [us]. *)
Definition site_after (s : Site) (d : Database) (us : list UserDoc.t) : Site :=
  {| core := {| db := Some d; faults := tl (faults (core s)) |};
     user := us;
     product := product s |}.

Definition find_one_user (email : string) : H (option UserDoc.t) :=
  fun s =>
    match db (core s) with
    | None => (inl (Raised TypeError), s)
    | Some d =>
        if next_fault (faults (core s)) then
          (inl (Raised StoreUnavailable), site_after s d (user s))
        else (inr (find_user email (user s)), site_after s d (user s))
    end.

(** Modelled from the spec: [create_document] of the [database] module,
    which is not part of the sources, at the collection ["user"]: one
    write that stores the fields of the model under a newly generated
    identifier and returns the identifier as a string; an unconfigured
    or unreachable store makes it fail and leaves the store as it was. *)
Definition create_user_document (data : User.t) : H string :=
  fun s =>
    match db (core s) with
    | None => (inl (Raised StoreUnavailable), s)
    | Some d =>
        if next_fault (faults (core s)) then
          (inl (Raised StoreUnavailable), site_after s d (user s))
        else
          (inr (str (next_oid d)),
           site_after s
             {| cart := cart d; order := order d;
                next_oid := N.succ (next_oid d) |}
             (user s ++ [UserDoc.mk (next_oid d) data]))
    end.

(** [UserSchema(email=..., password_hash=..., name=...)]: the other
    fields take their defaults. *)
Definition UserSchema (email password_hash name : string) : User.t :=
  User.mk email password_hash name "buyer" None None [] true.

Section Auth.
(** [_hash], main.py:51: the hexadecimal SHA-256 digest of the password,
    computed by [hashlib]. *)
Variable _hash : string -> string.

(** [register], main.py:55. *)
Definition register (body : RegisterPayload.t) : H RegisterResponse.t :=
  fun s =>
    match db (core s) with
    | None => (inl (HTTPException 500 "Database not configured"), s)
    | Some _ =>
        match find_one_user (RegisterPayload.email body) s with
        | (inl e, s1) => (inl e, s1)
        | (inr (Some _), s1) =>
            (inl (HTTPException 400 "Email already registered"), s1)
        | (inr None, s1) =>
            let user := UserSchema (RegisterPayload.email body)
                          (_hash (RegisterPayload.password body))
                          (RegisterPayload.name body) in
            match create_user_document user s1 with
            | (inl e, s2) => (inl e, s2)
            | (inr uid, s2) =>
                (inr (RegisterResponse.mk uid (RegisterPayload.email body)
                        (RegisterPayload.name body)),
                 s2)
            end
        end
    end.

(** [login], main.py:68. *)
Definition login (body : LoginPayload.t) : H LoginResponse.t :=
  fun s =>
    match db (core s) with
    | None => (inl (HTTPException 500 "Database not configured"), s)
    | Some _ =>
        match find_one_user (LoginPayload.email body) s with
        | (inl e, s1) => (inl e, s1)
        | (inr None, s1) => (inl (HTTPException 401 "Invalid credentials"), s1)
        | (inr (Some u), s1) =>
            if negb (String.eqb (User.password_hash (UserDoc.body u))
                       (_hash (LoginPayload.password body)))
            then (inl (HTTPException 401 "Invalid credentials"), s1)
            else
              (inr (LoginResponse.mk (str (UserDoc._id u))
                      (User.email (UserDoc.body u))
                      (User.name (UserDoc.body u))
                      (User.role (UserDoc.body u))),
               s1)
        end
    end.

(** The requests of the account and cart handlers together. *)
Inductive request : Type :=
| Register (body : RegisterPayload.t)
| Login (body : LoginPayload.t)
| Shop (o : op).

(** The site a request leaves behind, whether it returned or raised. *)
Definition serve (r : request) (s : Site) : Site :=
  match r with
  | Register b => snd (register b s)
  | Login b => snd (login b s)
  | Shop o =>
      {| core := exec o (core s); user := user s; product := product s |}
  end.

Definition serve_all (rs : list request) (s : Site) : Site :=
  fold_left (fun s r => serve r s) rs s.
End Auth.

Definition empty_site (fs : list bool) : Site :=
  {| core := fresh_world fs; user := []; product := [] |}.

(** The e-mail addresses of the stored users. *)
Definition emails (s : Site) : list string :=
  map (fun x => User.email (UserDoc.body x)) (user s).

(** A stand-in for the digest in the examples. *)
Definition toy_hash (pw : string) : string := ("#" ++ pw)%string.

Definition ana : RegisterPayload.t :=
  RegisterPayload.mk "ana@example.com" "s3cret" "Ana".

(** The users are buyers in good standing: what [UserSchema] fills in. *)
Definition default_user (x : UserDoc.t) : Prop :=
  User.role (UserDoc.body x) = "buyer" /\ User.is_active (UserDoc.body x) = true.

(** A property of the store of the cart and order handlers, read on a
    site. *)
Definition site_holds (P : Database -> Prop) (s : Site) : Prop :=
  holds P (core s).

(** A site with one registered user. *)
Definition site_ana : Site :=
  {| core := world_u1;
     user := [UserDoc.mk 7%N
                (UserSchema "ana@example.com" (toy_hash "s3cret") "Ana")];
     product := [] |}.

(** ** The catalogue: the [product] collection, [create_product] and
    [seed_products] *)

(** [price: float = Field(ge=0)], schemas.py:23, the one constraint the
    model declares: [price >= 0], which a NaN fails. *)
Definition ProductSchema_valid (p : Product.t) : bool :=
  PrimFloat.leb 0%float (Product.price p).

(** [db["product"].insert_one(doc)] for a dictionary without [_id]. *)
Definition insert_one_product (p : Product.t) (extra : dict) : H ObjectId :=
  fun s =>
    match db (core s) with
    | None => (inl (Raised TypeError), s)
    | Some d =>
        if next_fault (faults (core s)) then
          (inl (Raised StoreUnavailable), site_after s d (user s))
        else
          (inr (next_oid d),
           {| core := {| db := Some {| cart := cart d; order := order d;
                                       next_oid := N.succ (next_oid d) |};
                         faults := tl (faults (core s)) |};
              user := user s;
              product := product s ++ [ProductDoc.mk (next_oid d) p extra] |})
    end.

(** Modelled from the spec: [create_document] of the [database] module,
    which is not part of the sources, at the collection ["product"]: one
    write that stores the fields of the model under a newly generated
    identifier and returns the identifier as a string; an unconfigured
    or unreachable store makes it fail and leaves the store as it was. *)
Definition create_product_document (data : Product.t) : H string :=
  fun s =>
    match db (core s) with
    | None => (inl (Raised StoreUnavailable), s)
    | Some _ =>
        match insert_one_product data [] s with
        | (inl e, s') => (inl e, s')
        | (inr oid, s') => (inr (str oid), s')
        end
    end.

(** [create_product], main.py:100.  The body is a [CreateProductPayload],
    that is a [ProductSchema]: a body that fails the constraint of the
    model is refused before the handler runs. *)
Definition create_product (body : Product.t) : H string :=
  fun s =>
    if ProductSchema_valid body then create_product_document body s
    else (inl RequestValidationError, s).

Set Warnings "-inexact-float".

(** The four products of [seed_products], main.py:109-164, with the
    defaults of the model filled in. *)
Definition sample : list Product.t :=
  [Product.mk "Oversized Tee Minimal"
     (Some "Kaos oversized bahan cotton combed 24s, nyaman dan adem.")
     129000%float "Wanita"
     ["https://images.unsplash.com/photo-1487099174927-da3cd6408862?auto=format&fit=crop&w=1200&q=80"]
     4.6%float 128 100 ["black"; "white"; "cream"] ["S"; "M"; "L"; "XL"]
     None (Some 99000%float) [];
   Product.mk "Cardigan Rajut Pastel"
     (Some "Cardigan rajut halus dengan palet pastel.")
     199000%float "Pria"
     ["https://images.unsplash.com/photo-1693592401248-c9544518318a?auto=format&fit=crop&w=1200&q=80"]
     4.8%float 342 55 ["sage"; "rose"; "sky"] ["S"; "M"; "L"]
     None None [];
   Product.mk "Sneakers Putih Clean"
     (Some "Sneakers putih serbaguna dengan desain minimal.")
     359000%float "Unisex"
     ["https://images.unsplash.com/photo-1542291026-7eec264c27ff?auto=format&fit=crop&w=1200&q=80"]
     4.7%float 521 80 [] ["38"; "39"; "40"; "41"; "42"]
     None None [];
   Product.mk "Tote Bag Kanvas"
     (Some "Tote bag kanvas tebal untuk harian.")
     99000%float "Aksesoris"
     ["https://images.unsplash.com/photo-1511988617509-a57c8a288659?auto=format&fit=crop&w=1200&q=80"]
     4.5%float 213 120 [] []
     None None []].

(** [{"created_at": None, "updated_at": None}], the keys [seed_products]
    writes beside the fields of the model. *)
Definition no_stamps : dict := [("created_at", JNull); ("updated_at", JNull)].

(** The loop of [seed_products], main.py:165-166: one [insert_one] per
    product, in order; the first one to raise ends the request. *)
Fixpoint seed_loop (ps : list Product.t) : H unit :=
  fun s =>
    match ps with
    | [] => (inr tt, s)
    | p :: rest =>
        match insert_one_product p no_stamps s with
        | (inl e, s') => (inl e, s')
        | (inr _, s') => seed_loop rest s'
        end
    end.

(** [seed_products] over a list of products; the result is the value of
    ["seeded"]. *)
Definition seed_products_of (ps : list Product.t) : H Z :=
  fun s =>
    match db (core s) with
    | None => (inl (HTTPException 500 "Database not configured"), s)
    | Some _ =>
        match seed_loop ps s with
        | (inl e, s') => (inl e, s')
        | (inr _, s') => (inr (Z.of_nat (List.length ps)), s')
        end
    end.

(** [seed_products], main.py:105. *)
Definition seed_products : H Z := seed_products_of sample.

(** The number of store calls served before the first fault, among the
    first [n]. *)
Fixpoint served_prefix (n : nat) (fs : list bool) : nat :=
  match n with
  | O => O
  | S m => if next_fault fs then O else S (served_prefix m (tl fs))
  end.

(** The documents [seed_products] writes for a list of products, from the
    identifier [oid] on. *)
Fixpoint seeded (oid : ObjectId) (ps : list Product.t) : list ProductDoc.t :=
  match ps with
  | [] => []
  | p :: rest => ProductDoc.mk oid p no_stamps :: seeded (N.succ oid) rest
  end.

(** The requests of the catalogue, and all the others. *)
Inductive catalogue_request : Type :=
| CreateProduct (body : Product.t)
| SeedProducts
| Other (r : request).

Definition serve_catalogue (_hash : string -> string) (r : catalogue_request)
    (s : Site) : Site :=
  match r with
  | CreateProduct b => snd (create_product b s)
  | SeedProducts => snd (seed_products s)
  | Other r => serve _hash r s
  end.

Definition serve_catalogue_all (_hash : string -> string)
    (rs : list catalogue_request) (s : Site) : Site :=
  fold_left (fun s r => serve_catalogue _hash r s) rs s.

(** The prices of the stored products are non-negative numbers. *)
Definition priced (s : Site) : Prop :=
  Forall (fun x => PrimFloat.leb 0%float (Product.price (ProductDoc.body x)) = true)
    (product s).

(** ** The order of the lines *)

(** The product ids of the cart of a user after one more served request:
    a product not yet in the cart arrives at the end, an order of the
    user empties the cart. *)
Definition ids_step (uid : string) (ids : list string) (o : op) : list string :=
  match o with
  | GetCart _ => ids
  | AddItem b =>
      if String.eqb (CartItemPayload.user_id b) uid then
        if existsb (fun x => String.eqb x (CartItemPayload.product_id b)) ids
        then ids
        else ids ++ [CartItemPayload.product_id b]
      else ids
  | CreateOrder b =>
      if String.eqb (CreateOrderPayload.user_id b) uid then [] else ids
  end.

Definition ids_after (uid : string) (ops : list op) (ids : list string)
  : list string :=
  fold_left (ids_step uid) ops ids.

(** * Properties *)

Example scenario_cart :
  option_map (items_of "u1")
    (db (run [GetCart "u1";
              AddItem (CartItemPayload.mk "u1" "p1" 2);
              AddItem (CartItemPayload.mk "u1" "p1" 3)] (fresh_world [])))
  = Some [Item.mk "p1" 5].
Proof. reflexivity. Qed.

Example scenario_order :
  option_map
    (fun d => (items_of "u1" d,
               map (fun o => Order.status (OrderDoc.body o)) (order d)))
    (db (run [GetCart "u1";
              AddItem (CartItemPayload.mk "u1" "p1" 2);
              AddItem (CartItemPayload.mk "u1" "p1" 3);
              CreateOrder u1_order] (fresh_world [])))
  = Some ([], ["new"]).
Proof. reflexivity. Qed.

(** ** The line scan *)

Lemma scan_absent its pid q :
  Forall (fun x => Item.product_id x <> pid) its ->
  scan its pid q = (its, false).
Proof.
  induction 1 as [|x l Hx _ IH]; simpl; [reflexivity|].
  apply String.eqb_neq in Hx. now rewrite Hx, IH.
Qed.

Lemma scan_first pre it post pid q :
  Forall (fun x => Item.product_id x <> pid) pre ->
  Item.product_id it = pid ->
  scan (pre ++ it :: post) pid q
  = (pre ++ Item.mk pid (Item.qty it + q) :: post, true).
Proof.
  intros Hpre Hit. induction Hpre as [|x l Hx _ IH]; simpl.
  - subst pid. now rewrite String.eqb_refl.
  - apply String.eqb_neq in Hx. now rewrite Hx, IH.
Qed.

(** A list either has no line for the product or splits at the first one. *)
Lemma first_line its pid :
  Forall (fun x => Item.product_id x <> pid) its \/
  exists pre it post,
    its = pre ++ it :: post /\
    Forall (fun x => Item.product_id x <> pid) pre /\
    Item.product_id it = pid.
Proof.
  induction its as [|x l IH]; [left; constructor|].
  destruct (String.eqb_spec (Item.product_id x) pid) as [E|N].
  - right. exists [], x, l. repeat split; auto.
  - destruct IH as [IH|(pre & it & post & -> & Hpre & Hit)].
    + left. now constructor.
    + right. exists (x :: pre), it, post. repeat split; auto.
Qed.

Lemma upsert_product_absent its pid q :
  Forall (fun x => Item.product_id x <> pid) its ->
  upsert_product its pid q = its ++ [Item.mk pid q].
Proof. intros H. unfold upsert_product. now rewrite scan_absent. Qed.

Lemma upsert_product_first pre it post pid q :
  Forall (fun x => Item.product_id x <> pid) pre ->
  Item.product_id it = pid ->
  upsert_product (pre ++ it :: post) pid q
  = pre ++ Item.mk pid (Item.qty it + q) :: post.
Proof. intros H1 H2. unfold upsert_product. now rewrite scan_first. Qed.

Lemma filter_other_absent its pid :
  Forall (fun x => Item.product_id x <> pid) its ->
  filter (other_product pid) its = its.
Proof.
  induction 1 as [|x l Hx _ IH]; simpl; [reflexivity|].
  unfold other_product at 1. unfold has_product.
  apply String.eqb_neq in Hx. rewrite Hx. simpl. now rewrite IH.
Qed.

Lemma other_product_same it pid :
  Item.product_id it = pid -> other_product pid it = false.
Proof.
  intros <-. unfold other_product, has_product. now rewrite String.eqb_refl.
Qed.

(** Lines of other products survive the merge, values and order. *)
Lemma upsert_product_others its pid q :
  filter (other_product pid) (upsert_product its pid q)
  = filter (other_product pid) its.
Proof.
  destruct (first_line its pid) as [H|(pre & it & post & -> & Hpre & Hit)].
  - rewrite upsert_product_absent by assumption.
    rewrite filter_app. simpl.
    rewrite (other_product_same (Item.mk pid q) pid) by reflexivity.
    now rewrite app_nil_r.
  - rewrite upsert_product_first by assumption.
    rewrite !filter_app. simpl.
    rewrite (other_product_same it pid) by assumption.
    now rewrite (other_product_same (Item.mk pid (Item.qty it + q)) pid).
Qed.

Lemma upsert_product_ids its pid q :
  product_ids (upsert_product its pid q)
  = if existsb (has_product pid) its then product_ids its
    else product_ids its ++ [pid].
Proof.
  unfold product_ids.
  destruct (first_line its pid) as [H|(pre & it & post & -> & Hpre & Hit)].
  - rewrite upsert_product_absent by assumption.
    replace (existsb (has_product pid) its) with false.
    + now rewrite map_app.
    + symmetry. induction H as [|x l Hx _ IH]; simpl; [reflexivity|].
      unfold has_product at 1. apply String.eqb_neq in Hx. now rewrite Hx.
  - rewrite upsert_product_first by assumption.
    replace (existsb (has_product pid) (pre ++ it :: post)) with true.
    + rewrite !map_app. simpl. now rewrite Hit.
    + symmetry. rewrite existsb_app. simpl. unfold has_product at 2.
      rewrite Hit, String.eqb_refl. now rewrite orb_true_r.
Qed.

Lemma existsb_has_product its pid :
  existsb (has_product pid) its = false -> ~ In pid (product_ids its).
Proof.
  induction its as [|x l IH]; simpl; [tauto|].
  unfold has_product at 1. intros H. apply orb_false_iff in H as [H1 H2].
  apply String.eqb_neq in H1. intros [E|I]; [contradiction|]. now apply IH.
Qed.

Lemma upsert_product_NoDup its pid q :
  NoDup (product_ids its) -> NoDup (product_ids (upsert_product its pid q)).
Proof.
  intros H. rewrite upsert_product_ids.
  destruct (existsb (has_product pid) its) eqn:E; [assumption|].
  apply NoDup_app; [assumption|repeat constructor; simpl; tauto|].
  intros x Hx [<-|[]]. now apply existsb_has_product in E.
Qed.

Lemma upsert_product_positive its pid q :
  1 <= q ->
  Forall (fun it => 1 <= Item.qty it) its ->
  Forall (fun it => 1 <= Item.qty it) (upsert_product its pid q).
Proof.
  intros Hq H.
  destruct (first_line its pid) as [A|(pre & it & post & -> & Hpre & Hit)].
  - rewrite upsert_product_absent by assumption.
    apply Forall_app. split; [assumption|]. repeat constructor. exact Hq.
  - rewrite upsert_product_first by assumption.
    apply Forall_app in H as [H1 H2]. inversion H2 as [|? ? H3 H4]; subst.
    apply Forall_app. split; [assumption|]. constructor; [simpl; lia|assumption].
Qed.

(** ** The cart collection *)

Lemma find_cart_none uid cs :
  find_cart uid cs = None <-> Forall (other_user uid) cs.
Proof.
  unfold find_cart, other_user. induction cs as [|c l IH]; simpl.
  - split; [constructor|reflexivity].
  - destruct (String.eqb_spec (CartDoc.user_id c) uid) as [E|N].
    + split; [discriminate|]. intros H. inversion H. contradiction.
    + rewrite IH. split; [now constructor|]. intros H. now inversion H.
Qed.

Lemma find_cart_skip uid pre l :
  Forall (other_user uid) pre -> find_cart uid (pre ++ l) = find_cart uid l.
Proof.
  unfold find_cart, other_user. induction 1 as [|c r Hc _ IH]; simpl.
  - reflexivity.
  - apply String.eqb_neq in Hc. now rewrite Hc.
Qed.

Lemma find_cart_head uid c l :
  CartDoc.user_id c = uid -> find_cart uid (c :: l) = Some c.
Proof. intros <-. unfold find_cart. simpl. now rewrite String.eqb_refl. Qed.

Lemma find_cart_split uid cs c :
  find_cart uid cs = Some c ->
  exists pre post,
    cs = pre ++ c :: post /\ Forall (other_user uid) pre /\
    CartDoc.user_id c = uid.
Proof.
  unfold find_cart, other_user. induction cs as [|x l IH]; simpl; [discriminate|].
  destruct (String.eqb_spec (CartDoc.user_id x) uid) as [E|N].
  - intros [= ->]. exists [], l. repeat split; auto.
  - intros H. destruct (IH H) as (pre & post & -> & Hpre & Hc).
    exists (x :: pre), post. repeat split; auto.
Qed.

(** Replacing a user's document leaves the look-up of other users alone. *)
Lemma find_cart_replace v pre c c' post :
  CartDoc.user_id c <> v -> CartDoc.user_id c' <> v ->
  find_cart v (pre ++ c' :: post) = find_cart v (pre ++ c :: post).
Proof.
  intros Hc Hc'. unfold find_cart. induction pre as [|x l IH]; simpl.
  - apply String.eqb_neq in Hc, Hc'. now rewrite Hc, Hc'.
  - now rewrite IH.
Qed.

Lemma find_cart_snoc v cs c :
  CartDoc.user_id c <> v -> find_cart v (cs ++ [c]) = find_cart v cs.
Proof.
  intros Hc. unfold find_cart. induction cs as [|x l IH]; simpl.
  - apply String.eqb_neq in Hc. now rewrite Hc.
  - now rewrite IH.
Qed.

Lemma update_first_none uid s cs :
  Forall (other_user uid) cs -> update_first uid s cs = None.
Proof.
  unfold other_user. induction 1 as [|c r Hc _ IH]; simpl; [reflexivity|].
  apply String.eqb_neq in Hc. now rewrite Hc, IH.
Qed.

Lemma update_first_split uid s pre c post :
  Forall (other_user uid) pre -> CartDoc.user_id c = uid ->
  update_first uid s (pre ++ c :: post)
  = Some (match apply_set s c with
          | inl e => inl e
          | inr c' => inr (pre ++ c' :: post)
          end).
Proof.
  unfold other_user. intros Hpre Hc.
  induction Hpre as [|x r Hx _ IH]; simpl.
  - subst uid. now rewrite String.eqb_refl.
  - apply String.eqb_neq in Hx. rewrite Hx, IH. now destruct (apply_set s c).
Qed.

(** ** What a request does to the store *)

Lemma update_cart_found body d c pre post :
  cart d = pre ++ c :: post ->
  Forall (other_user (uid_of body)) pre ->
  CartDoc.user_id c = uid_of body ->
  update_cart (uid_of body) (set_of_cart (merged_cart (Some c) body)) d
  = (inr tt,
     {| cart := pre ++ CartDoc.mk (CartDoc._id c) (uid_of body)
                         (upsert_product (CartDoc.items c)
                            (CartItemPayload.product_id body)
                            (CartItemPayload.qty body)) :: post;
        order := order d;
        next_oid := next_oid d |}).
Proof.
  intros E Hpre Hc. unfold update_cart. rewrite E.
  rewrite (update_first_split _ _ _ _ _ Hpre Hc).
  unfold apply_set, set_of_cart, merged_cart, dict_of_doc. simpl.
  now rewrite N.eqb_refl, Hc.
Qed.

Lemma update_cart_absent body d :
  Forall (other_user (uid_of body)) (cart d) ->
  update_cart (uid_of body) (set_of_cart (merged_cart None body)) d
  = (inr tt,
     {| cart := cart d ++ [CartDoc.mk (next_oid d) (uid_of body)
                             (upsert_product []
                                (CartItemPayload.product_id body)
                                (CartItemPayload.qty body))];
        order := order d;
        next_oid := N.succ (next_oid d) |}).
Proof.
  intros H. unfold update_cart. now rewrite (update_first_none _ _ _ H).
Qed.

(** The write of [add_to_cart] is always accepted, and puts the merged
    lines in the user's document: in place when there was one, in a new
    document at the end otherwise. *)
Lemma update_cart_merged body d :
  update_cart (uid_of body)
    (set_of_cart (merged_cart (find_cart (uid_of body) (cart d)) body)) d
  = (inr tt, added body d) /\
  order (added body d) = order d /\
  match find_cart (uid_of body) (cart d) with
  | Some c =>
      exists pre post,
        cart d = pre ++ c :: post /\
        Forall (other_user (uid_of body)) pre /\
        CartDoc.user_id c = uid_of body /\
        next_oid (added body d) = next_oid d /\
        cart (added body d)
        = pre ++ CartDoc.mk (CartDoc._id c) (uid_of body) (merged_items body d)
              :: post
  | None =>
      next_oid (added body d) = N.succ (next_oid d) /\
      cart (added body d)
      = cart d ++ [CartDoc.mk (next_oid d) (uid_of body) (merged_items body d)]
  end.
Proof.
  unfold added, merged_items, items_of.
  destruct (find_cart (uid_of body) (cart d)) as [c|] eqn:F.
  - destruct (find_cart_split _ _ _ F) as (pre & post & E & Hpre & Hc).
    rewrite (update_cart_found body d c pre post E Hpre Hc). simpl.
    repeat split. exists pre, post. repeat split; auto.
  - apply find_cart_none in F.
    rewrite (update_cart_absent body d F). simpl. repeat split.
Qed.

Lemma find_cart_added body d :
  find_cart (uid_of body) (cart (added body d))
  = Some (CartDoc.mk (merged_id body d) (uid_of body) (merged_items body d)).
Proof.
  destruct (update_cart_merged body d) as (_ & _ & H). unfold merged_id.
  destruct (find_cart (uid_of body) (cart d)) as [c|] eqn:F.
  - destruct H as (pre & post & _ & Hpre & _ & _ & ->).
    rewrite (find_cart_skip _ _ _ Hpre). now apply find_cart_head.
  - destruct H as (_ & ->). apply find_cart_none in F.
    rewrite (find_cart_skip _ _ _ F). now apply find_cart_head.
Qed.

Lemma find_cart_added_other body d v :
  v <> uid_of body ->
  find_cart v (cart (added body d)) = find_cart v (cart d).
Proof.
  intros Hv. destruct (update_cart_merged body d) as (_ & _ & H).
  destruct (find_cart (uid_of body) (cart d)) as [c|] eqn:F.
  - destruct H as (pre & post & E & _ & Hc & _ & ->). rewrite E.
    apply find_cart_replace; simpl; congruence.
  - destruct H as (_ & ->). apply find_cart_snoc. simpl. congruence.
Qed.

Lemma update_cart_clear_found uid d c pre post :
  cart d = pre ++ c :: post ->
  Forall (other_user uid) pre ->
  CartDoc.user_id c = uid ->
  update_cart uid clear_items d
  = (inr tt,
     {| cart := pre ++ CartDoc.mk (CartDoc._id c) (CartDoc.user_id c) [] :: post;
        order := order d;
        next_oid := next_oid d |}).
Proof.
  intros E Hpre Hc. unfold update_cart. rewrite E.
  now rewrite (update_first_split _ _ _ _ _ Hpre Hc).
Qed.

Lemma update_cart_clear_absent uid d :
  Forall (other_user uid) (cart d) ->
  update_cart uid clear_items d
  = (inr tt,
     {| cart := cart d ++ [CartDoc.mk (next_oid d) uid []];
        order := order d;
        next_oid := N.succ (next_oid d) |}).
Proof.
  intros H. unfold update_cart. now rewrite (update_first_none _ _ _ H).
Qed.

(** The write of [create_order] on the cart collection is always
    accepted, and empties the user's document or inserts an empty one. *)
Lemma update_cart_clear uid d :
  update_cart uid clear_items d = (inr tt, cleared uid d) /\
  order (cleared uid d) = order d /\
  match find_cart uid (cart d) with
  | Some c =>
      exists pre post,
        cart d = pre ++ c :: post /\
        Forall (other_user uid) pre /\
        CartDoc.user_id c = uid /\
        next_oid (cleared uid d) = next_oid d /\
        cart (cleared uid d)
        = pre ++ CartDoc.mk (CartDoc._id c) (CartDoc.user_id c) [] :: post
  | None =>
      next_oid (cleared uid d) = N.succ (next_oid d) /\
      cart (cleared uid d) = cart d ++ [CartDoc.mk (next_oid d) uid []]
  end.
Proof.
  unfold cleared.
  destruct (find_cart uid (cart d)) as [c|] eqn:F.
  - destruct (find_cart_split _ _ _ F) as (pre & post & E & Hpre & Hc).
    rewrite (update_cart_clear_found uid d c pre post E Hpre Hc). simpl.
    repeat split. exists pre, post. repeat split; auto.
  - apply find_cart_none in F.
    rewrite (update_cart_clear_absent uid d F). simpl. repeat split.
Qed.

Lemma find_cart_cleared uid d :
  exists i, find_cart uid (cart (cleared uid d)) = Some (CartDoc.mk i uid []).
Proof.
  destruct (update_cart_clear uid d) as (_ & _ & H).
  destruct (find_cart uid (cart d)) as [c|] eqn:F.
  - destruct H as (pre & post & _ & Hpre & Hc & _ & ->).
    exists (CartDoc._id c). rewrite (find_cart_skip _ _ _ Hpre), Hc.
    now apply find_cart_head.
  - destruct H as (_ & ->). exists (next_oid d). apply find_cart_none in F.
    rewrite (find_cart_skip _ _ _ F). now apply find_cart_head.
Qed.

(** ** The handlers, case by case *)

Lemma get_cart_run user_id w :
  get_cart user_id w =
  match db w with
  | None => (inl TypeError, w)
  | Some d =>
      if next_fault (faults w) then (inl StoreUnavailable, served 1 w d)
      else
        match find_cart user_id (cart d) with
        | Some c =>
            (inr (CartResponse.mk (CartDoc.user_id c) (CartDoc.items c)
                    (Some (str (CartDoc._id c)))),
             served 1 w d)
        | None =>
            if next_fault (tl (faults w)) then
              (inl StoreUnavailable, served 2 w d)
            else
              (inr (CartResponse.mk user_id [] (Some (str (next_oid d)))),
               served 2 w (created user_id d))
        end
  end.
Proof.
  unfold get_cart, bind, find_one, insert_one, store_call, ret, served, created.
  destruct (db w) as [d|]; [|reflexivity].
  destruct (next_fault (faults w)); [reflexivity|]. simpl.
  destruct (find_cart user_id (cart d)) as [c|]; [reflexivity|]. simpl.
  destruct (next_fault (tl (faults w))); reflexivity.
Qed.

Lemma add_to_cart_run body w :
  add_to_cart body w =
  match db w with
  | None => (inl TypeError, w)
  | Some d =>
      if next_fault (faults w) then (inl StoreUnavailable, served 1 w d)
      else if next_fault (tl (faults w)) then
        (inl StoreUnavailable, served 2 w d)
      else (inr true, served 2 w (added body d))
  end.
Proof.
  unfold add_to_cart, bind, find_one, update_one, store_call, ret, served.
  destruct (db w) as [d|]; [|reflexivity].
  destruct (next_fault (faults w)); [reflexivity|]. simpl.
  destruct (next_fault (tl (faults w))); [reflexivity|].
  destruct (update_cart_merged body d) as (E & _). unfold uid_of in E.
  now rewrite E.
Qed.

Lemma create_order_run body w :
  create_order body w =
  match db w with
  | None => (inl StoreUnavailable, w)
  | Some d =>
      if next_fault (faults w) then (inl StoreUnavailable, served 1 w d)
      else if next_fault (tl (faults w)) then
        (inl StoreUnavailable, served 2 w (ordered (order_of body) d))
      else
        (inr (OrderResponse.mk (str (next_oid d)) "new"),
         served 2 w
           (cleared (CreateOrderPayload.user_id body)
              (ordered (order_of body) d)))
  end.
Proof.
  unfold create_order, bind, create_document, update_one, store_call, ret,
    served, ordered.
  fold (order_of body).
  destruct (db w) as [d|]; [|reflexivity].
  destruct (next_fault (faults w)); [reflexivity|]. simpl.
  destruct (next_fault (tl (faults w))); [reflexivity|].
  destruct (update_cart_clear (CreateOrderPayload.user_id body)
              (snd (insert_order (order_of body) d))) as (E & _).
  unfold insert_order in E. simpl in E. now rewrite E.
Qed.

(** ** Reachable stores *)

#[local] Hint Constructors effect : core.

Lemma exec_unconfigured o w : db w = None -> db (exec o w) = None.
Proof.
  intros H. destruct o; simpl;
    [rewrite get_cart_run|rewrite add_to_cart_run|rewrite create_order_run];
    now rewrite H.
Qed.

Lemma exec_effect o w d :
  db w = Some d -> exists d', db (exec o w) = Some d' /\ effect o d d'.
Proof.
  intros H. destruct o as [u|b|b]; simpl.
  - rewrite get_cart_run, H.
    destruct (next_fault (faults w)); [simpl; eauto|].
    destruct (find_cart u (cart d)) eqn:F; [simpl; eauto|].
    destruct (next_fault (tl (faults w))); simpl; eauto.
  - rewrite add_to_cart_run, H.
    destruct (next_fault (faults w)); [simpl; eauto|].
    destruct (next_fault (tl (faults w))); simpl; eauto.
  - rewrite create_order_run, H.
    destruct (next_fault (faults w)); [simpl; eauto|].
    destruct (next_fault (tl (faults w))); simpl; eauto.
Qed.

Lemma holds_fresh (P : Database -> Prop) fs :
  P empty_db -> holds P (fresh_world fs).
Proof. intros H. exact H. Qed.

Section Invariant.
Variable P : Database -> Prop.
Variable Q : op -> Prop.
Hypothesis step : forall o d d', Q o -> effect o d d' -> P d -> P d'.

Lemma exec_holds o w : Q o -> holds P w -> holds P (exec o w).
Proof.
  unfold holds. intros HQ. destruct (db w) as [d|] eqn:E.
  - destruct (exec_effect o w d E) as (d' & -> & He). intros HP.
    exact (step o d d' HQ He HP).
  - now rewrite (exec_unconfigured o w E).
Qed.

Lemma run_holds ops : forall w, Forall Q ops -> holds P w -> holds P (run ops w).
Proof.
  induction ops as [|o l IH]; intros w HQ HP; simpl; [exact HP|].
  inversion HQ; subst. apply IH; [assumption|]. now apply exec_holds.
Qed.
End Invariant.

Lemma Forall_any_op ops : Forall any_op ops.
Proof. induction ops; constructor; [exact I|assumption]. Qed.

Lemma other_user_not_in uid cs :
  Forall (other_user uid) cs -> ~ In uid (map CartDoc.user_id cs).
Proof.
  induction 1 as [|c l Hc _ IH]; simpl; [tauto|].
  intros [E|I]; [exact (Hc E)|exact (IH I)].
Qed.

Lemma NoDup_snoc (x : string) l : NoDup l -> ~ In x l -> NoDup (l ++ [x]).
Proof.
  intros Hl Hx. apply NoDup_app; [assumption|repeat constructor; simpl; tauto|].
  intros y Hy [<-|[]]. exact (Hx Hy).
Qed.

Lemma users_created u d : users (created u d) = users d ++ [u].
Proof. unfold users, created. simpl. now rewrite map_app. Qed.

Lemma users_added b d :
  users (added b d)
  = match find_cart (uid_of b) (cart d) with
    | Some _ => users d
    | None => users d ++ [uid_of b]
    end.
Proof.
  destruct (update_cart_merged b d) as (_ & _ & H). unfold users.
  destruct (find_cart (uid_of b) (cart d)) as [c|].
  - destruct H as (pre & post & E & _ & Hc & _ & ->).
    rewrite E, !map_app. simpl. now rewrite Hc.
  - destruct H as (_ & ->). now rewrite map_app.
Qed.

Lemma users_ordered o d : users (ordered o d) = users d.
Proof. reflexivity. Qed.

Lemma users_cleared u d :
  users (cleared u d)
  = match find_cart u (cart d) with
    | Some _ => users d
    | None => users d ++ [u]
    end.
Proof.
  destruct (update_cart_clear u d) as (_ & _ & H). unfold users.
  destruct (find_cart u (cart d)) as [c|].
  - destruct H as (pre & post & E & _ & Hc & _ & ->).
    now rewrite E, !map_app.
  - destruct H as (_ & ->). now rewrite map_app.
Qed.

Lemma one_cart_snoc u d :
  find_cart u (cart d) = None -> NoDup (users d) -> NoDup (users d ++ [u]).
Proof.
  intros F H. apply NoDup_snoc; [assumption|].
  apply other_user_not_in. now apply find_cart_none.
Qed.

Lemma one_cart_step o d d' :
  any_op o -> effect o d d' -> one_cart_per_user d -> one_cart_per_user d'.
Proof.
  unfold one_cart_per_user. intros _ He H. destruct He.
  - assumption.
  - rewrite users_created. now apply one_cart_snoc.
  - rewrite users_added.
    destruct (find_cart (uid_of b) (cart d)) eqn:F; [assumption|].
    now apply one_cart_snoc.
  - assumption.
  - rewrite users_cleared. simpl.
    destruct (find_cart (CreateOrderPayload.user_id b) (cart d)) eqn:F;
      [assumption|].
    now apply one_cart_snoc.
Qed.

Section Lines.
Variable R : list Item.t -> Prop.
Variable Q : op -> Prop.
Hypothesis R_empty : R [].
Hypothesis R_merge :
  forall b its,
    Q (AddItem b) -> R its ->
    R (upsert_product its (CartItemPayload.product_id b)
         (CartItemPayload.qty b)).

Lemma lines_replace pre c c' post :
  Forall (fun c => R (CartDoc.items c)) (pre ++ c :: post) ->
  R (CartDoc.items c') ->
  Forall (fun c => R (CartDoc.items c)) (pre ++ c' :: post).
Proof.
  intros H Hc'. apply Forall_app in H as [H1 H2].
  inversion H2; subst. apply Forall_app. split; [assumption|].
  now constructor.
Qed.

Lemma lines_snoc cs c :
  Forall (fun c => R (CartDoc.items c)) cs ->
  R (CartDoc.items c) ->
  Forall (fun c => R (CartDoc.items c)) (cs ++ [c]).
Proof.
  intros H Hc. apply Forall_app. split; [assumption|]. now repeat constructor.
Qed.

Lemma lines_step o d d' : Q o -> effect o d d' -> lines R d -> lines R d'.
Proof.
  unfold lines. intros HQ He H. destruct He.
  - assumption.
  - unfold created. simpl. now apply lines_snoc.
  - destruct (update_cart_merged b d) as (_ & _ & A).
    unfold merged_items, items_of in A.
    destruct (find_cart (uid_of b) (cart d)) as [c|].
    + destruct A as (pre & post & E & _ & _ & _ & ->). rewrite E in H.
      apply (lines_replace pre c _ post H). simpl.
      apply R_merge; [assumption|].
      apply Forall_app in H as [_ H]. now inversion H.
    + destruct A as (_ & ->). apply lines_snoc; [assumption|]. simpl.
      now apply R_merge.
  - assumption.
  - destruct (update_cart_clear (CreateOrderPayload.user_id b)
                (ordered (order_of b) d)) as (_ & _ & A).
    change (cart (ordered (order_of b) d)) with (cart d) in A.
    destruct (find_cart (CreateOrderPayload.user_id b) (cart d)) as [c|].
    + destruct A as (pre & post & E & _ & _ & _ & ->). rewrite E in H.
      now apply (lines_replace pre c _ post H).
    + destruct A as (_ & ->). now apply lines_snoc.
Qed.
End Lines.

Lemma unique_products_step o d d' :
  any_op o -> effect o d d' ->
  lines unique_products d -> lines unique_products d'.
Proof.
  apply lines_step.
  - constructor.
  - intros b its _. apply upsert_product_NoDup.
Qed.

Lemma positive_qty_step o d d' :
  positive_add o -> effect o d d' ->
  lines positive_qty d -> lines positive_qty d'.
Proof.
  apply lines_step.
  - constructor.
  - intros b its Hb. now apply upsert_product_positive.
Qed.

(** ** The order collection *)

Lemma effect_orders o d d' :
  effect o d d' ->
  (next_oid d <= next_oid d')%N /\
  (order d' = order d \/
   exists b,
     o = CreateOrder b /\
     order d' = order d ++ [OrderDoc.mk (next_oid d) (order_of b)] /\
     (next_oid d < next_oid d')%N).
Proof.
  intros He. destruct He.
  - split; [lia|now left].
  - unfold created. simpl. split; [lia|now left].
  - destruct (update_cart_merged b d) as (_ & Ho & A). rewrite Ho.
    split; [|now left].
    destruct (find_cart (uid_of b) (cart d)).
    + destruct A as (pre & post & _ & _ & _ & -> & _). lia.
    + destruct A as (-> & _). lia.
  - unfold ordered. simpl. split; [lia|]. right. exists b.
    repeat split. lia.
  - destruct (update_cart_clear (CreateOrderPayload.user_id b)
                (ordered (order_of b) d)) as (_ & Ho & A).
    rewrite Ho.
    change (next_oid (ordered (order_of b) d)) with (N.succ (next_oid d)) in A.
    change (cart (ordered (order_of b) d)) with (cart d) in A.
    assert (N.succ (next_oid d)
            <= next_oid (cleared (CreateOrderPayload.user_id b)
                           (ordered (order_of b) d)))%N as Hn.
    { destruct (find_cart (CreateOrderPayload.user_id b) (cart d)).
      - destruct A as (pre & post & _ & _ & _ & -> & _). lia.
      - destruct A as (-> & _). lia. }
    split; [lia|]. right. exists b. repeat split. lia.
Qed.

Lemma order_ids_fresh_step o d d' :
  any_op o -> effect o d d' -> order_ids_fresh d -> order_ids_fresh d'.
Proof.
  unfold order_ids_fresh. intros _ He H.
  destruct (effect_orders o d d' He) as (Hn & [->|(b & _ & -> & Hlt)]).
  - eapply Forall_impl; [|exact H]. simpl. intros a Ha. lia.
  - apply Forall_app. split.
    + eapply Forall_impl; [|exact H]. simpl. intros a Ha. lia.
    + repeat constructor. simpl. exact Hlt.
Qed.

Lemma find_order_app oid d l x :
  find (fun o => N.eqb (OrderDoc._id o) oid) (order d) = Some x ->
  find (fun o => N.eqb (OrderDoc._id o) oid) (order d ++ l) = Some x.
Proof.
  induction (order d) as [|a r IH]; simpl; [discriminate|].
  destruct (N.eqb (OrderDoc._id a) oid); auto.
Qed.

(** No request removes or rewrites a stored order. *)
Lemma find_order_step oid x o d d' :
  any_op o -> effect o d d' ->
  find_order oid d = Some x -> find_order oid d' = Some x.
Proof.
  unfold find_order. intros _ He H.
  destruct (effect_orders o d d' He) as (_ & [->|(b & _ & -> & _)]).
  - assumption.
  - now apply find_order_app.
Qed.

Lemma find_order_new oid o d :
  order_ids_fresh d ->
  oid = next_oid d ->
  find (fun x => N.eqb (OrderDoc._id x) oid) (order d ++ [OrderDoc.mk oid o])
  = Some (OrderDoc.mk oid o).
Proof.
  unfold order_ids_fresh. intros H ->.
  induction H as [|a r Ha _ IH]; simpl.
  - now rewrite N.eqb_refl.
  - destruct (N.eqb_spec (OrderDoc._id a) (next_oid d)) as [E|N]; [lia|exact IH].
Qed.

Lemma run_configured ops : forall w d,
  db w = Some d -> exists d', db (run ops w) = Some d'.
Proof.
  induction ops as [|o l IH]; intros w d H; simpl; [eauto|].
  destruct (exec_effect o w d H) as (d' & E & _). exact (IH _ _ E).
Qed.

(** ** Adding to the cart *)

Lemma quiet_two fs :
  quiet 2 fs = true ->
  next_fault fs = false /\ next_fault (tl fs) = false.
Proof.
  simpl. destruct (next_fault fs), (next_fault (tl fs)); simpl; intuition.
Qed.

Lemma add_to_cart_served body w d :
  db w = Some d ->
  quiet 2 (faults w) = true ->
  add_to_cart body w = (inr true, served 2 w (added body d)).
Proof.
  intros Hd Hq. apply quiet_two in Hq as [H1 H2].
  now rewrite add_to_cart_run, Hd, H1, H2.
Qed.

(** C1. When the user's cart already has a line for the product,
    [add_to_cart] returns and leaves the cart with the quantity of the
    first such line increased by the requested quantity, every other
    line (later lines of the same product included) as it was, and so
    the same number of lines; when the product ids of the cart were
    distinct, the cart has exactly one line for the product. *)
Theorem add_to_cart_accumulates body w d c pre it post :
  db w = Some d ->
  quiet 2 (faults w) = true ->
  find_cart (CartItemPayload.user_id body) (cart d) = Some c ->
  CartDoc.items c = pre ++ it :: post ->
  Forall (fun x => Item.product_id x <> CartItemPayload.product_id body) pre ->
  Item.product_id it = CartItemPayload.product_id body ->
  exists d' its',
    add_to_cart body w = (inr true, served 2 w d') /\
    find_cart (CartItemPayload.user_id body) (cart d')
    = Some (CartDoc.mk (CartDoc._id c) (CartDoc.user_id c) its') /\
    its' = pre ++ Item.mk (CartItemPayload.product_id body)
                    (Item.qty it + CartItemPayload.qty body) :: post /\
    List.length its' = List.length (CartDoc.items c) /\
    (NoDup (product_ids (CartDoc.items c)) ->
     count_occ string_dec (product_ids its') (CartItemPayload.product_id body)
     = 1%nat).
Proof.
  intros Hd Hq Hc Hits Hpre Hit.
  exists (added body d),
    (pre ++ Item.mk (CartItemPayload.product_id body)
              (Item.qty it + CartItemPayload.qty body) :: post).
  split; [now apply add_to_cart_served|].
  assert (merged_items body d
          = pre ++ Item.mk (CartItemPayload.product_id body)
                     (Item.qty it + CartItemPayload.qty body) :: post) as Hm.
  { unfold merged_items, items_of, uid_of. rewrite Hc, Hits.
    now apply upsert_product_first. }
  split; [|split; [reflexivity|split]].
  - pose proof (find_cart_added body d) as Hf.
    unfold merged_id, uid_of in Hf. rewrite Hc, Hm in Hf. rewrite Hf.
    destruct (find_cart_split _ _ _ Hc) as (_ & _ & _ & _ & ->). reflexivity.
  - rewrite Hits, !length_app. reflexivity.
  - intros Hnd.
    assert (product_ids (pre ++ Item.mk (CartItemPayload.product_id body)
                           (Item.qty it + CartItemPayload.qty body) :: post)
            = product_ids (CartDoc.items c)) as ->.
    { rewrite Hits. unfold product_ids. rewrite !map_app. simpl.
      now rewrite Hit. }
    apply NoDup_count_occ'; [assumption|].
    rewrite Hits. unfold product_ids. rewrite map_app. apply in_or_app.
    right. left. exact Hit.
Qed.

Lemma add_to_cart_accumulates_witness :
  exists d' its',
    add_to_cart (CartItemPayload.mk "u1" "p1" 3) world_u1
    = (inr true, served 2 world_u1 d') /\
    find_cart "u1" (cart d') = Some (CartDoc.mk 0%N "u1" its') /\
    its' = [Item.mk "p1" (2 + 3)] /\
    List.length its' = 1%nat /\
    (NoDup ["p1"] -> count_occ string_dec (product_ids its') "p1" = 1%nat).
Proof.
  apply (add_to_cart_accumulates (CartItemPayload.mk "u1" "p1" 3) world_u1
           store_u1 (CartDoc.mk 0%N "u1" [Item.mk "p1" 2]) [] (Item.mk "p1" 2) []);
    [reflexivity|reflexivity|reflexivity|reflexivity|constructor|reflexivity].
Defined.

(** C6. [add_to_cart] on a cart without a line for the product puts the
    new line at the end; in every case the lines of the other products
    keep their values and their order, the document of the user keeps
    its [user_id] (and its identity), and the carts of the other users
    are what they were. *)
Theorem add_to_cart_frame body w d :
  db w = Some d ->
  quiet 2 (faults w) = true ->
  exists d' c',
    add_to_cart body w = (inr true, served 2 w d') /\
    find_cart (CartItemPayload.user_id body) (cart d') = Some c' /\
    CartDoc.user_id c' = CartItemPayload.user_id body /\
    (Forall (fun x => Item.product_id x <> CartItemPayload.product_id body)
       (items_of (CartItemPayload.user_id body) d) ->
     CartDoc.items c'
     = items_of (CartItemPayload.user_id body) d
         ++ [Item.mk (CartItemPayload.product_id body)
               (CartItemPayload.qty body)]) /\
    filter (other_product (CartItemPayload.product_id body)) (CartDoc.items c')
    = filter (other_product (CartItemPayload.product_id body))
        (items_of (CartItemPayload.user_id body) d) /\
    (forall c,
        find_cart (CartItemPayload.user_id body) (cart d) = Some c ->
        CartDoc.user_id c' = CartDoc.user_id c /\
        CartDoc._id c' = CartDoc._id c) /\
    (forall v,
        v <> CartItemPayload.user_id body ->
        find_cart v (cart d') = find_cart v (cart d)).
Proof.
  intros Hd Hq.
  exists (added body d). eexists.
  split; [now apply add_to_cart_served|].
  split; [apply (find_cart_added body d)|]. simpl.
  split; [reflexivity|]. split; [|split; [|split]].
  - intros H. unfold merged_items. now apply upsert_product_absent.
  - apply upsert_product_others.
  - intros c Hc. unfold merged_id, uid_of. rewrite Hc.
    destruct (find_cart_split _ _ _ Hc) as (_ & _ & _ & _ & ->). now split.
  - intros v Hv. now apply find_cart_added_other.
Qed.

Lemma add_to_cart_frame_witness :
  exists d' c',
    add_to_cart (CartItemPayload.mk "u1" "p2" 1) world_u1
    = (inr true, served 2 world_u1 d') /\
    find_cart "u1" (cart d') = Some c' /\
    CartDoc.user_id c' = "u1" /\
    (Forall (fun x => Item.product_id x <> "p2") (items_of "u1" store_u1) ->
     CartDoc.items c' = items_of "u1" store_u1 ++ [Item.mk "p2" 1]) /\
    filter (other_product "p2") (CartDoc.items c')
    = filter (other_product "p2") (items_of "u1" store_u1) /\
    (forall c,
        find_cart "u1" (cart store_u1) = Some c ->
        CartDoc.user_id c' = CartDoc.user_id c /\
        CartDoc._id c' = CartDoc._id c) /\
    (forall v, v <> "u1" -> find_cart v (cart d') = find_cart v (cart store_u1)).
Proof.
  apply (add_to_cart_frame (CartItemPayload.mk "u1" "p2" 1) world_u1 store_u1);
    reflexivity.
Defined.

(** ** Fetching the cart *)

Lemma get_cart_found user_id w d c :
  db w = Some d ->
  next_fault (faults w) = false ->
  find_cart user_id (cart d) = Some c ->
  get_cart user_id w
  = (inr (CartResponse.mk user_id (CartDoc.items c)
            (Some (str (CartDoc._id c)))),
     served 1 w d).
Proof.
  intros Hd Hf Hc. rewrite get_cart_run, Hd, Hf, Hc.
  destruct (find_cart_split _ _ _ Hc) as (_ & _ & _ & _ & ->). reflexivity.
Qed.

Lemma get_cart_created user_id w d :
  db w = Some d ->
  quiet 2 (faults w) = true ->
  find_cart user_id (cart d) = None ->
  get_cart user_id w
  = (inr (CartResponse.mk user_id [] (Some (str (next_oid d)))),
     served 2 w (created user_id d)).
Proof.
  intros Hd Hq Hc. apply quiet_two in Hq as [H1 H2].
  now rewrite get_cart_run, Hd, H1, Hc, H2.
Qed.

Lemma created_spec user_id d :
  find_cart user_id (cart d) = None ->
  cart (created user_id d) = cart d ++ [CartDoc.mk (next_oid d) user_id []] /\
  find_cart user_id (cart (created user_id d))
  = Some (CartDoc.mk (next_oid d) user_id []).
Proof.
  intros Hc. split; [reflexivity|].
  unfold created. simpl. apply find_cart_none in Hc.
  rewrite (find_cart_skip _ _ _ Hc). now apply find_cart_head.
Qed.

(** C5. [get_cart] returns the stored cart when there is one; when there
    is none it inserts the empty cart of the user and returns it; and it
    raises only when the store is not configured or one of its (at most
    two) store calls fails, never because the cart is absent. *)
Theorem get_cart_get_or_create user_id w :
  (forall d c,
      db w = Some d ->
      next_fault (faults w) = false ->
      find_cart user_id (cart d) = Some c ->
      get_cart user_id w
      = (inr (CartResponse.mk user_id (CartDoc.items c)
                (Some (str (CartDoc._id c)))),
         served 1 w d)) /\
  (forall d,
      db w = Some d ->
      quiet 2 (faults w) = true ->
      find_cart user_id (cart d) = None ->
      get_cart user_id w
      = (inr (CartResponse.mk user_id [] (Some (str (next_oid d)))),
         served 2 w (created user_id d)) /\
      cart (created user_id d) = cart d ++ [CartDoc.mk (next_oid d) user_id []] /\
      find_cart user_id (cart (created user_id d))
      = Some (CartDoc.mk (next_oid d) user_id [])) /\
  (forall e w',
      get_cart user_id w = (inl e, w') ->
      (db w = None /\ e = TypeError /\ w' = w) \/
      (exists d,
          db w = Some d /\ quiet 2 (faults w) = false /\
          e = StoreUnavailable /\ db w' = Some d)).
Proof.
  split; [|split].
  - intros d c. apply get_cart_found.
  - intros d Hd Hq Hc. split; [now apply get_cart_created|].
    apply (created_spec user_id d Hc).
  - intros e w'. rewrite get_cart_run.
    destruct (db w) as [d|] eqn:Hd.
    + simpl. destruct (next_fault (faults w)).
      * intros [= <- <-]. right. exists d. now repeat split.
      * destruct (find_cart user_id (cart d)); [discriminate|].
        destruct (next_fault (tl (faults w))); [|discriminate].
        intros [= <- <-]. right. exists d. now repeat split.
    + intros [= <- <-]. now left.
Qed.

Lemma get_cart_get_or_create_witness :
  get_cart "u2" world_u1
  = (inr (CartResponse.mk "u2" [] (Some (str 1%N))),
     served 2 world_u1 (created "u2" store_u1)) /\
  cart (created "u2" store_u1) = cart store_u1 ++ [CartDoc.mk 1%N "u2" []] /\
  find_cart "u2" (cart (created "u2" store_u1)) = Some (CartDoc.mk 1%N "u2" []).
Proof.
  apply (proj1 (proj2 (get_cart_get_or_create "u2" world_u1)) store_u1);
    reflexivity.
Defined.

(** C7. A first [get_cart] of a user without a cart inserts one document;
    a second one, right after, inserts nothing and returns the same [id];
    and whatever requests are served or fail, a store with at most one
    cart document per user keeps at most one, the empty store first of
    all. *)
Theorem one_cart_per_user_kept :
  (forall u w d,
      db w = Some d ->
      find_cart u (cart d) = None ->
      quiet 3 (faults w) = true ->
      exists r1 r2 w1 w2 d2,
        get_cart u w = (inr r1, w1) /\
        get_cart u w1 = (inr r2, w2) /\
        CartResponse.id r1 = Some (str (next_oid d)) /\
        CartResponse.id r2 = CartResponse.id r1 /\
        db w2 = Some d2 /\
        cart d2 = cart d ++ [CartDoc.mk (next_oid d) u []]) /\
  (forall ops w,
      holds one_cart_per_user w -> holds one_cart_per_user (run ops w)) /\
  (forall ops fs, holds one_cart_per_user (run ops (fresh_world fs))).
Proof.
  split; [|split].
  - intros u w d Hd Hc Hq.
    assert (next_fault (faults w) = false /\
            next_fault (tl (faults w)) = false /\
            next_fault (tl (tl (faults w))) = false) as (H1 & H2 & H3).
    { simpl in Hq.
      destruct (next_fault (faults w)), (next_fault (tl (faults w))),
        (next_fault (tl (tl (faults w)))); simpl in Hq; intuition. }
    assert (quiet 2 (faults w) = true) as Hq2.
    { simpl. now rewrite H1, H2. }
    pose proof (get_cart_created u w d Hd Hq2 Hc) as E1.
    destruct (created_spec u d Hc) as (Ecart & Efind).
    pose proof (get_cart_found u (served 2 w (created u d)) (created u d) _
                  eq_refl H3 Efind) as Hold.
    do 5 eexists. split; [exact E1|]. split; [exact Hold|].
    split; [reflexivity|]. split; [reflexivity|]. split; [reflexivity|].
    exact Ecart.
  - intros ops w. apply (run_holds one_cart_per_user any_op one_cart_step).
    apply Forall_any_op.
  - intros ops fs. apply (run_holds one_cart_per_user any_op one_cart_step).
    + apply Forall_any_op.
    + apply holds_fresh. constructor.
Qed.

Lemma one_cart_per_user_kept_witness :
  exists r1 r2 w1 w2 d2,
    get_cart "u2" world_u1 = (inr r1, w1) /\
    get_cart "u2" w1 = (inr r2, w2) /\
    CartResponse.id r1 = Some (str 1%N) /\
    CartResponse.id r2 = CartResponse.id r1 /\
    db w2 = Some d2 /\
    cart d2 = cart store_u1 ++ [CartDoc.mk 1%N "u2" []].
Proof.
  apply (proj1 one_cart_per_user_kept "u2" world_u1 store_u1); reflexivity.
Defined.

(** ** The cart invariant *)

Lemma cart_invariant_step o d d' :
  positive_add o -> effect o d d' -> cart_invariant d -> cart_invariant d'.
Proof.
  intros Hq He [H1 H2]. split.
  - exact (unique_products_step o d d' I He H1).
  - exact (positive_qty_step o d d' Hq He H2).
Qed.

(** C4, as the claim states it, fails: a request with quantity zero
    leaves a line of quantity zero in the cart. *)
Lemma zero_qty_breaks_invariant :
  ~ holds cart_invariant
      (run [AddItem (CartItemPayload.mk "u1" "p1" 0)] (fresh_world [])).
Proof.
  intros [_ H]. unfold lines in H. simpl in H.
  inversion H as [|c l Hc _]; subst. inversion Hc as [|it r Hit _]; subst.
  simpl in Hit. lia.
Qed.

(** C4, amended.  Whatever requests are served or fail, no cart document
    ever has two lines with the same product id; and as long as every
    [add_to_cart] request carries a quantity of at least one, every line
    has a quantity of at least one. *)
Theorem cart_invariant_kept ops :
  (forall w,
      holds (lines unique_products) w ->
      holds (lines unique_products) (run ops w)) /\
  (forall w,
      Forall positive_add ops ->
      holds cart_invariant w -> holds cart_invariant (run ops w)) /\
  (forall fs,
      holds (lines unique_products) (run ops (fresh_world fs)) /\
      (Forall positive_add ops ->
       holds cart_invariant (run ops (fresh_world fs)))).
Proof.
  assert (forall w,
             holds (lines unique_products) w ->
             holds (lines unique_products) (run ops w)) as A.
  { intros w. apply (run_holds _ any_op unique_products_step).
    apply Forall_any_op. }
  assert (forall w,
             Forall positive_add ops ->
             holds cart_invariant w -> holds cart_invariant (run ops w)) as B.
  { intros w. apply (run_holds _ positive_add cart_invariant_step). }
  split; [exact A|]. split; [exact B|]. intros fs. split.
  - apply A. apply holds_fresh. constructor.
  - intros H. apply B; [exact H|]. apply holds_fresh. split; constructor.
Qed.

Lemma cart_invariant_kept_witness :
  holds cart_invariant
    (run [AddItem (CartItemPayload.mk "u1" "p1" 2); GetCart "u2";
          AddItem (CartItemPayload.mk "u1" "p1" 3)] world_u1).
Proof.
  apply (proj1 (proj2 (cart_invariant_kept
                         [AddItem (CartItemPayload.mk "u1" "p1" 2); GetCart "u2";
                          AddItem (CartItemPayload.mk "u1" "p1" 3)])) world_u1).
  - repeat constructor; simpl; lia.
  - split; repeat constructor; simpl; [tauto|lia].
Defined.

(** ** Placing an order *)

(** When [create_order] returns, both of its store calls were served. *)
Lemma create_order_returns body w resp w' :
  create_order body w = (inr resp, w') ->
  exists d,
    db w = Some d /\
    resp = OrderResponse.mk (str (next_oid d)) "new" /\
    w' = served 2 w (cleared (CreateOrderPayload.user_id body)
                       (ordered (order_of body) d)).
Proof.
  rewrite create_order_run. destruct (db w) as [d|]; [|discriminate].
  destruct (next_fault (faults w)); [discriminate|].
  destruct (next_fault (tl (faults w))); [discriminate|].
  intros [= <- <-]. now exists d.
Qed.

(** C2. When [create_order] returns, the order collection has gained the
    order, with status ["new"], under the identifier returned; the
    user's cart document is empty; and a [get_cart] of that user that
    follows returns no lines, and does return when its store call is
    served. *)
Theorem create_order_clears_cart body w resp w' :
  create_order body w = (inr resp, w') ->
  OrderResponse.status resp = "new" /\
  exists d d',
    db w = Some d /\ db w' = Some d' /\
    OrderResponse.order_id resp = str (next_oid d) /\
    order d' = order d ++ [OrderDoc.mk (next_oid d) (order_of body)] /\
    Order.status (order_of body) = "new" /\
    (exists i, find_cart (CreateOrderPayload.user_id body) (cart d')
               = Some (CartDoc.mk i (CreateOrderPayload.user_id body) [])) /\
    (forall r w'',
        get_cart (CreateOrderPayload.user_id body) w' = (inr r, w'') ->
        CartResponse.items r = []) /\
    (next_fault (faults w') = false ->
     exists r,
       get_cart (CreateOrderPayload.user_id body) w' = (inr r, served 1 w' d') /\
       CartResponse.items r = []).
Proof.
  intros H. destruct (create_order_returns body w resp w' H) as (d & Hd & -> & ->).
  split; [reflexivity|].
  exists d, (cleared (CreateOrderPayload.user_id body) (ordered (order_of body) d)).
  destruct (update_cart_clear (CreateOrderPayload.user_id body)
              (ordered (order_of body) d)) as (_ & Ho & _).
  destruct (find_cart_cleared (CreateOrderPayload.user_id body)
              (ordered (order_of body) d)) as (i & Hi).
  repeat split; try assumption.
  - now exists i.
  - intros r w''. rewrite get_cart_run. simpl.
    destruct (next_fault _); [discriminate|]. rewrite Hi.
    now intros [= <- _].
  - intros Hf. rewrite get_cart_run. simpl. simpl in Hf. rewrite Hf, Hi.
    eexists. split; reflexivity.
Qed.

Lemma create_order_clears_cart_witness :
  OrderResponse.status (OrderResponse.mk (str 1%N) "new") = "new" /\
  exists d d',
    db world_u1 = Some d /\
    db (served 2 world_u1 (cleared "u1" (ordered (order_of u1_order) store_u1)))
    = Some d' /\
    OrderResponse.order_id (OrderResponse.mk (str 1%N) "new") = str (next_oid d) /\
    order d' = order d ++ [OrderDoc.mk (next_oid d) (order_of u1_order)] /\
    Order.status (order_of u1_order) = "new" /\
    (exists i, find_cart "u1" (cart d') = Some (CartDoc.mk i "u1" [])) /\
    (forall r w'',
        get_cart "u1"
          (served 2 world_u1 (cleared "u1" (ordered (order_of u1_order) store_u1)))
        = (inr r, w'') ->
        CartResponse.items r = []) /\
    (next_fault
       (faults
          (served 2 world_u1 (cleared "u1" (ordered (order_of u1_order) store_u1))))
     = false ->
     exists r,
       get_cart "u1"
         (served 2 world_u1 (cleared "u1" (ordered (order_of u1_order) store_u1)))
       = (inr r,
          served 1
            (served 2 world_u1 (cleared "u1" (ordered (order_of u1_order) store_u1)))
            d') /\
       CartResponse.items r = []).
Proof.
  apply (create_order_clears_cart u1_order world_u1
           (OrderResponse.mk (str 1%N) "new")
           (served 2 world_u1 (cleared "u1" (ordered (order_of u1_order) store_u1)))).
  reflexivity.
Defined.

Lemma snoc_not_same {A} (l : list A) (x : A) : l ++ [x] <> l.
Proof.
  intros E. apply (f_equal (@List.length A)) in E.
  rewrite length_app in E. simpl in E. lia.
Qed.

(** C3. The write of the order comes first and alone.  When it fails,
    [create_order] raises the error of that write in the world that
    write left, where the carts and the orders are what they were.
    Whenever [create_order] raises and has stored no order, it is the
    write of the order that failed, with that error, and the carts are
    what they were: no cart is touched before the order is written.
    And whatever the outcome, the order collection is what it was or has
    gained the whole order, never a part of it. *)
Theorem create_order_write_fails body w :
  (forall e w1,
      create_document (order_of body) w = (inl e, w1) ->
      create_order body w = (inl e, w1) /\ db w1 = db w) /\
  (forall e w',
      create_order body w = (inl e, w') ->
      option_map order (db w') = option_map order (db w) ->
      create_document (order_of body) w = (inl e, w') /\ db w' = db w) /\
  (forall r w' d d',
      create_order body w = (r, w') ->
      db w = Some d ->
      db w' = Some d' ->
      order d' = order d \/
      exists i, order d' = order d ++ [OrderDoc.mk i (order_of body)]).
Proof.
  split; [|split].
  - intros e w1 H. split.
    + unfold create_order, bind. fold (order_of body). now rewrite H.
    + unfold create_document in H. destruct (db w) as [d|] eqn:Hd.
      * destruct (next_fault (faults w)).
        -- now injection H as <- <-.
        -- destruct (insert_order (order_of body) d). discriminate.
      * injection H as <- <-. now rewrite Hd.
  - intros e w'. rewrite create_order_run. unfold create_document.
    destruct (db w) as [d|] eqn:Hd.
    + destruct (next_fault (faults w)).
      * intros [= <- <-] _. now split.
      * destruct (next_fault (tl (faults w))); [|discriminate].
        intros [= <- <-]. simpl. intros [= E].
        now apply snoc_not_same in E.
    + intros [= <- <-] _. split; [reflexivity|assumption].
  - intros r w' d d'. rewrite create_order_run. intros H Hd. rewrite Hd in H.
    destruct (next_fault (faults w)).
    + injection H as _ <-. intros [= <-]. now left.
    + destruct (next_fault (tl (faults w))); injection H as _ <-;
        intros [= <-]; right; exists (next_oid d).
      * reflexivity.
      * destruct (update_cart_clear (CreateOrderPayload.user_id body)
                    (ordered (order_of body) d)) as (_ & -> & _).
        reflexivity.
Qed.

Lemma create_order_write_fails_witness :
  create_document (order_of u1_order) world_u1_down
  = (inl StoreUnavailable, {| db := Some store_u1; faults := [] |}) /\
  db {| db := Some store_u1; faults := [] |} = db world_u1_down.
Proof.
  apply (proj1 (proj2 (create_order_write_fails u1_order world_u1_down))
           StoreUnavailable {| db := Some store_u1; faults := [] |});
    reflexivity.
Defined.

(** C8. When [create_order] returns, the order read by the identifier
    returned has the lines, the total, the payment method and the address
    of the request and the status ["new"]; and after any sequence of
    requests, served or failed, the same read gives the same document. *)
Theorem order_immutable body w d resp w' :
  db w = Some d ->
  order_ids_fresh d ->
  create_order body w = (inr resp, w') ->
  exists oid,
    OrderResponse.order_id resp = str oid /\
    OrderResponse.status resp = "new" /\
    forall ops,
    exists d'',
      db (run ops w') = Some d'' /\
      find_order oid d''
      = Some (OrderDoc.mk oid
                (Order.mk (CreateOrderPayload.user_id body)
                   (CreateOrderPayload.items body)
                   (CreateOrderPayload.total body)
                   "new"
                   (CreateOrderPayload.payment_method body)
                   (CreateOrderPayload.address body))).
Proof.
  intros Hd Hfresh H.
  destruct (create_order_returns body w resp w' H) as (d0 & Hd0 & -> & ->).
  rewrite Hd in Hd0. injection Hd0 as <-.
  exists (next_oid d). split; [reflexivity|]. split; [reflexivity|].
  set (x := OrderDoc.mk (next_oid d) (order_of body)).
  set (w' := served 2 w (cleared (CreateOrderPayload.user_id body)
                           (ordered (order_of body) d))).
  assert (holds (fun s => find_order (next_oid d) s = Some x) w') as Hx.
  { unfold holds, w'. simpl.
    destruct (update_cart_clear (CreateOrderPayload.user_id body)
                (ordered (order_of body) d)) as (_ & Ho & _).
    unfold find_order. rewrite Ho. unfold ordered. simpl.
    now apply find_order_new. }
  intros ops.
  destruct (run_configured ops w' _ eq_refl) as (d'' & Hd'').
  exists d''. split; [exact Hd''|].
  pose proof (run_holds _ any_op (find_order_step (next_oid d) x) ops w'
                (Forall_any_op ops) Hx) as Hr.
  unfold holds in Hr. now rewrite Hd'' in Hr.
Qed.

Lemma order_immutable_witness :
  exists oid,
    OrderResponse.order_id (OrderResponse.mk (str 1%N) "new") = str oid /\
    OrderResponse.status (OrderResponse.mk (str 1%N) "new") = "new" /\
    forall ops,
    exists d'',
      db (run ops
            (served 2 world_u1 (cleared "u1" (ordered (order_of u1_order) store_u1))))
      = Some d'' /\
      find_order oid d''
      = Some (OrderDoc.mk oid
                (Order.mk "u1" (CreateOrderPayload.items u1_order) 50%float "new"
                   "cod" (CreateOrderPayload.address u1_order))).
Proof.
  apply (order_immutable u1_order world_u1 store_u1
           (OrderResponse.mk (str 1%N) "new")
           (served 2 world_u1 (cleared "u1" (ordered (order_of u1_order) store_u1))));
    [reflexivity|constructor|reflexivity].
Defined.

(** Every store reached from the empty one has fresh order identifiers. *)
Lemma order_ids_fresh_reachable ops fs :
  holds order_ids_fresh (run ops (fresh_world fs)).
Proof.
  apply (run_holds _ any_op order_ids_fresh_step).
  - apply Forall_any_op.
  - apply holds_fresh. constructor.
Qed.

(** C9 fails on the code: a request with total [-50] is accepted, and the
    order is stored with that total. *)
Theorem negative_total_persisted :
  exists d' o,
    create_order negative_order (fresh_world [])
    = (inr (OrderResponse.mk (str 0%N) "new"), {| db := Some d'; faults := [] |}) /\
    find_order 0%N d' = Some o /\
    Order.total (OrderDoc.body o) = (-50)%float /\
    PrimFloat.leb 0%float (Order.total (OrderDoc.body o)) = false.
Proof.
  do 2 eexists. split; [reflexivity|]. split; [reflexivity|].
  split; reflexivity.
Qed.

(** ** Two requests at once *)

(** A request that runs its store calls without another one in between
    is [add_to_cart]. *)
Lemma thread_alone body w :
  interleave [false; false] (Ready body) (Ready body) w
  = (Returned (fst (add_to_cart body w)), Ready body, snd (add_to_cart body w)).
Proof.
  unfold add_to_cart, bind, ret. simpl.
  destruct (find_one (CartItemPayload.user_id body) w) as [[e|found] w1];
    simpl; [reflexivity|].
  destruct (update_one (CartItemPayload.user_id body)
              (set_of_cart (merged_cart found body)) w1) as [[e|[]] w2];
    reflexivity.
Qed.

Example serial_adds :
  interleave [false; false; true; true] (Ready one_p1) (Ready one_p1)
    (fresh_world [])
  = (Returned (inr true), Returned (inr true),
     {| db := Some {| cart := [CartDoc.mk 0%N "u1" [Item.mk "p1" 2]];
                      order := [];
                      next_oid := 1%N |};
        faults := [] |}).
Proof. reflexivity. Qed.

(** One after the other, two requests for one unit of a product that is
    not in the cart leave two units. *)
Lemma serial_adds_accumulate u pid w d :
  db w = Some d ->
  quiet 4 (faults w) = true ->
  items_of u d = [] ->
  exists w1 w2 d2,
    add_to_cart (CartItemPayload.mk u pid 1) w = (inr true, w1) /\
    add_to_cart (CartItemPayload.mk u pid 1) w1 = (inr true, w2) /\
    db w2 = Some d2 /\
    items_of u d2 = [Item.mk pid 2].
Proof.
  intros Hd Hq Hi. set (b := CartItemPayload.mk u pid 1).
  assert (quiet 2 (faults w) = true /\
          quiet 2 (tl (tl (faults w))) = true) as [Q1 Q2].
  { simpl in *.
    destruct (next_fault (faults w)), (next_fault (tl (faults w)));
      simpl in *; try discriminate. now split. }
  exists (served 2 w (added b d)),
    (served 2 (served 2 w (added b d)) (added b (added b d))),
    (added b (added b d)).
  split; [now apply add_to_cart_served|].
  split; [now apply add_to_cart_served|].
  split; [reflexivity|].
  assert (items_of u (added b d) = [Item.mk pid 1]) as H1.
  { unfold items_of at 1. change u with (uid_of b) at 1.
    rewrite find_cart_added. simpl. unfold merged_items.
    change (uid_of b) with u. now rewrite Hi. }
  unfold items_of at 1. change u with (uid_of b) at 1.
  rewrite find_cart_added. simpl. unfold merged_items.
  change (uid_of b) with u. rewrite H1. unfold upsert_product. simpl.
  now rewrite String.eqb_refl.
Qed.

(** C10 fails on the code: when both requests read the cart before either
    writes it, both return and the cart holds quantity 1. *)
Theorem concurrent_add_loses_update :
  interleave [false; true; false; true] (Ready one_p1) (Ready one_p1)
    (fresh_world [])
  = (Returned (inr true), Returned (inr true),
     {| db := Some {| cart := [CartDoc.mk 0%N "u1" [Item.mk "p1" 1]];
                      order := [];
                      next_oid := 1%N |};
        faults := [] |}).
Proof. reflexivity. Qed.

(** The same happens when the user has an (empty) cart document. *)
Example lost_update_on_empty_cart :
  interleave [false; true; false; true] (Ready one_p1) (Ready one_p1)
    {| db := Some {| cart := [CartDoc.mk 0%N "u1" []];
                     order := [];
                     next_oid := 1%N |};
       faults := [] |}
  = (Returned (inr true), Returned (inr true),
     {| db := Some {| cart := [CartDoc.mk 0%N "u1" [Item.mk "p1" 1]];
                      order := [];
                      next_oid := 1%N |};
        faults := [] |}).
Proof. reflexivity. Qed.

(** * Further properties of the cart and order handlers *)

(** ** Failures of [add_to_cart] and [create_order] *)

(** X1. [add_to_cart] is all or nothing: when it raises, the store is
    what it was and the error is not a refusal of the write (the [_id] it
    sends in [$set] is always the one of the document matched); when it
    returns, the store holds the merged cart. *)
Theorem add_to_cart_all_or_nothing body w r w' :
  add_to_cart body w = (r, w') ->
  match r with
  | inl e => db w' = db w /\ e <> WriteError
  | inr ok => ok = true /\ exists d, db w = Some d /\ db w' = Some (added body d)
  end.
Proof.
  rewrite add_to_cart_run. destruct (db w) as [d|] eqn:Hd.
  - destruct (next_fault (faults w)).
    + intros [= <- <-]. split; [reflexivity|discriminate].
    + destruct (next_fault (tl (faults w))).
      * intros [= <- <-]. split; [reflexivity|discriminate].
      * intros [= <- <-]. split; [reflexivity|]. now exists d.
  - intros [= <- <-]. split; [assumption|discriminate].
Qed.

Lemma add_to_cart_all_or_nothing_witness :
  db {| db := Some store_u1; faults := [] |} = db world_u1_down /\
  StoreUnavailable <> WriteError.
Proof.
  apply (add_to_cart_all_or_nothing (CartItemPayload.mk "u1" "p1" 3)
           world_u1_down (inl StoreUnavailable)
           {| db := Some store_u1; faults := [] |}).
  reflexivity.
Defined.

(** X2. The window between the two writes of [create_order]: when the
    order is written and the clearing of the cart fails, the request
    raises, the order is in the store and the carts are what they
    were. *)
Theorem create_order_partial_failure body w d :
  db w = Some d ->
  next_fault (faults w) = false ->
  next_fault (tl (faults w)) = true ->
  exists d',
    create_order body w = (inl StoreUnavailable, served 2 w d') /\
    order d' = order d ++ [OrderDoc.mk (next_oid d) (order_of body)] /\
    cart d' = cart d.
Proof.
  intros Hd H1 H2. exists (ordered (order_of body) d).
  rewrite create_order_run, Hd, H1, H2. repeat split.
Qed.

Lemma create_order_partial_failure_witness :
  exists d',
    create_order u1_order {| db := Some store_u1; faults := [false; true] |}
    = (inl StoreUnavailable,
       served 2 {| db := Some store_u1; faults := [false; true] |} d') /\
    order d' = order store_u1 ++ [OrderDoc.mk 1%N (order_of u1_order)] /\
    cart d' = cart store_u1.
Proof.
  apply (create_order_partial_failure u1_order
           {| db := Some store_u1; faults := [false; true] |} store_u1);
    reflexivity.
Defined.

(** ** Reading back what was added *)

Lemma quiet_succ n fs :
  quiet (S n) fs = true <-> next_fault fs = false /\ quiet n (tl fs) = true.
Proof.
  simpl. destruct (next_fault fs); simpl; intuition discriminate.
Qed.

(** X3. [get_cart] after [add_to_cart] returns the merged lines under the
    identifier of the user's document, and writes nothing. *)
Theorem get_cart_after_add body w d :
  db w = Some d ->
  quiet 3 (faults w) = true ->
  exists w1 w2,
    add_to_cart body w = (inr true, w1) /\
    get_cart (CartItemPayload.user_id body) w1
    = (inr (CartResponse.mk (CartItemPayload.user_id body)
              (upsert_product (items_of (CartItemPayload.user_id body) d)
                 (CartItemPayload.product_id body) (CartItemPayload.qty body))
              (Some (str (merged_id body d)))),
       w2) /\
    db w2 = db w1.
Proof.
  intros Hd Hq. apply quiet_succ in Hq as [H1 Hq].
  apply quiet_succ in Hq as [H2 Hq]. apply quiet_succ in Hq as [H3 _].
  exists (served 2 w (added body d)), (served 3 w (added body d)).
  split; [apply add_to_cart_served; [assumption|]; simpl; now rewrite H1, H2|].
  split; [|reflexivity].
  apply (get_cart_found (CartItemPayload.user_id body)
           (served 2 w (added body d)) (added body d)
           (CartDoc.mk (merged_id body d) (uid_of body) (merged_items body d))).
  - reflexivity.
  - exact H3.
  - apply (find_cart_added body d).
Qed.

Lemma get_cart_after_add_witness :
  exists w1 w2,
    add_to_cart (CartItemPayload.mk "u1" "p2" 1) world_u1 = (inr true, w1) /\
    get_cart "u1" w1
    = (inr (CartResponse.mk "u1"
              (upsert_product (items_of "u1" store_u1) "p2" 1)
              (Some (str (merged_id (CartItemPayload.mk "u1" "p2" 1) store_u1)))),
       w2) /\
    db w2 = db w1.
Proof.
  apply (get_cart_after_add (CartItemPayload.mk "u1" "p2" 1) world_u1 store_u1);
    reflexivity.
Defined.

(** ** Quantities add up *)

Lemma qty_total_app pid l1 l2 :
  qty_total pid (l1 ++ l2) = qty_total pid l1 + qty_total pid l2.
Proof. induction l1 as [|x l IH]; simpl; [reflexivity|]. rewrite IH. lia. Qed.

Lemma qty_total_upsert pid its p q :
  qty_total pid (upsert_product its p q)
  = qty_total pid its + (if String.eqb p pid then q else 0).
Proof.
  destruct (first_line its p) as [H|(pre & it & post & -> & Hpre & Hit)].
  - rewrite upsert_product_absent by assumption.
    rewrite qty_total_app. simpl. unfold has_product. simpl. lia.
  - rewrite upsert_product_first by assumption.
    rewrite !qty_total_app. simpl. unfold has_product. simpl. rewrite Hit.
    destruct (String.eqb p pid); lia.
Qed.

Lemma exec_served o w d :
  db w = Some d -> faults w = [] ->
  exec o w = {| db := Some (after o d); faults := [] |}.
Proof.
  intros Hd Hf. destruct o as [u|b|b]; simpl.
  - rewrite get_cart_run, Hd, Hf. simpl. unfold served. rewrite Hf.
    destruct (find_cart u (cart d)); reflexivity.
  - rewrite add_to_cart_run, Hd, Hf. simpl. unfold served. now rewrite Hf.
  - rewrite create_order_run, Hd, Hf. simpl. unfold served. now rewrite Hf.
Qed.

Lemma run_served ops : forall w d,
  db w = Some d -> faults w = [] ->
  exists d', run ops w = {| db := Some d'; faults := [] |}.
Proof.
  induction ops as [|o l IH]; intros w d Hd Hf; simpl.
  - exists d. destruct w. simpl in *. now subst.
  - rewrite (exec_served o w d Hd Hf). now apply (IH _ (after o d)).
Qed.

Lemma find_cart_created_other u v d :
  v <> u -> find_cart v (cart (created u d)) = find_cart v (cart d).
Proof. intros H. unfold created. simpl. apply find_cart_snoc. simpl. congruence. Qed.

Lemma find_cart_cleared_other u v d :
  v <> u -> find_cart v (cart (cleared u d)) = find_cart v (cart d).
Proof.
  intros Hv. destruct (update_cart_clear u d) as (_ & _ & H).
  destruct (find_cart u (cart d)) as [c|] eqn:F.
  - destruct H as (pre & post & E & _ & Hc & _ & ->). rewrite E.
    apply find_cart_replace; simpl; congruence.
  - destruct H as (_ & ->). apply find_cart_snoc. simpl. congruence.
Qed.

(** The lines of a user after one served request that is not an order of
    that user. *)
Lemma items_of_after uid o d :
  no_order_of uid o ->
  items_of uid (after o d)
  = match o with
    | AddItem b =>
        if String.eqb (CartItemPayload.user_id b) uid then
          upsert_product (items_of uid d) (CartItemPayload.product_id b)
            (CartItemPayload.qty b)
        else items_of uid d
    | _ => items_of uid d
    end.
Proof.
  intros Hn. destruct o as [u|b|b]; simpl.
  - destruct (find_cart u (cart d)) eqn:F; [reflexivity|].
    unfold items_of. destruct (String.eqb_spec uid u) as [->|N].
    + destruct (created_spec u d F) as (_ & ->). now rewrite F.
    + now rewrite find_cart_created_other.
  - unfold items_of at 1.
    destruct (String.eqb_spec (CartItemPayload.user_id b) uid) as [<-|N].
    + change (CartItemPayload.user_id b) with (uid_of b).
      now rewrite find_cart_added.
    + rewrite find_cart_added_other; [reflexivity|].
      unfold uid_of. congruence.
  - simpl in Hn. unfold items_of.
    rewrite find_cart_cleared_other by congruence. reflexivity.
Qed.

(** X4. Over any sequence of served requests without an order of the
    user, the quantity the user's cart holds of a product grows by
    exactly what the [add_to_cart] requests of that user asked for that
    product, whatever the other users do in between. *)
Theorem quantities_add_up uid pid ops : forall w d,
  db w = Some d ->
  faults w = [] ->
  Forall (no_order_of uid) ops ->
  exists d',
    db (run ops w) = Some d' /\
    qty_total pid (items_of uid d')
    = qty_total pid (items_of uid d) + requested uid pid ops.
Proof.
  induction ops as [|o l IH]; intros w d Hd Hf Hn; simpl.
  - exists d. split; [assumption|lia].
  - inversion Hn as [|? ? Ho Hl]; subst.
    rewrite (exec_served o w d Hd Hf).
    destruct (IH {| db := Some (after o d); faults := [] |} (after o d)
                eq_refl eq_refl Hl) as (d' & Hd' & Hq).
    exists d'. split; [exact Hd'|]. rewrite Hq, (items_of_after uid o d Ho).
    destruct o as [u|b|b]; try lia.
    destruct (String.eqb (CartItemPayload.user_id b) uid); simpl; [|lia].
    rewrite qty_total_upsert. lia.
Qed.

Lemma quantities_add_up_witness :
  exists d',
    db (run [AddItem (CartItemPayload.mk "u1" "p1" 3);
             AddItem (CartItemPayload.mk "u2" "p1" 7);
             GetCart "u3";
             CreateOrder (CreateOrderPayload.mk "u2" [] 0%float "cod" []);
             AddItem (CartItemPayload.mk "u1" "p1" (-1))] world_two)
    = Some d' /\
    qty_total "p1" (items_of "u1" d')
    = qty_total "p1" (items_of "u1" store_two)
      + requested "u1" "p1"
          [AddItem (CartItemPayload.mk "u1" "p1" 3);
           AddItem (CartItemPayload.mk "u2" "p1" 7);
           GetCart "u3";
           CreateOrder (CreateOrderPayload.mk "u2" [] 0%float "cod" []);
           AddItem (CartItemPayload.mk "u1" "p1" (-1))].
Proof.
  apply (quantities_add_up "u1" "p1"
           [AddItem (CartItemPayload.mk "u1" "p1" 3);
            AddItem (CartItemPayload.mk "u2" "p1" 7);
            GetCart "u3";
            CreateOrder (CreateOrderPayload.mk "u2" [] 0%float "cod" []);
            AddItem (CartItemPayload.mk "u1" "p1" (-1))] world_two store_two);
    [reflexivity|reflexivity|].
  repeat constructor. simpl. discriminate.
Defined.

(** ** Lines are never removed *)

Lemma existsb_first_line its pid :
  existsb (has_product pid) its = true ->
  exists pre it post,
    its = pre ++ it :: post /\
    Forall (fun x => Item.product_id x <> pid) pre /\
    Item.product_id it = pid.
Proof.
  intros H. destruct (first_line its pid) as [A|A]; [|exact A].
  exfalso. induction A as [|x l Hx _ IH]; simpl in H; [discriminate|].
  unfold has_product at 1 in H. apply String.eqb_neq in Hx.
  rewrite Hx in H. now apply IH.
Qed.

Lemma existsb_absent its pid :
  existsb (has_product pid) its = false ->
  Forall (fun x => Item.product_id x <> pid) its.
Proof.
  induction its as [|x l IH]; simpl; [constructor|].
  intros H. apply orb_false_iff in H as [H1 H2].
  constructor; [now apply String.eqb_neq|now apply IH].
Qed.

(** Adding a quantity and then its opposite, on the lines. *)
Lemma upsert_product_undo its pid q :
  upsert_product (upsert_product its pid q) pid (- q)
  = if existsb (has_product pid) its then its
    else its ++ [Item.mk pid 0].
Proof.
  destruct (existsb (has_product pid) its) eqn:E.
  - destruct (existsb_first_line its pid E) as (pre & it & post & -> & Hpre & Hit).
    rewrite (upsert_product_first pre it post pid q Hpre Hit).
    rewrite (upsert_product_first pre (Item.mk pid (Item.qty it + q)) post pid
               (- q) Hpre eq_refl). simpl.
    destruct it as [p n]. simpl in *. subst p. do 3 f_equal. lia.
  - pose proof (existsb_absent its pid E) as A.
    rewrite (upsert_product_absent its pid q A).
    rewrite (upsert_product_first its (Item.mk pid q) [] pid (- q) A eq_refl).
    simpl.
    do 3 f_equal. lia.
Qed.

(** X5. A request for a quantity followed by a request for the opposite
    quantity restores the cart when it already had a line for the
    product; when it had none, a line with quantity zero stays: nothing
    ever removes a line. *)
Theorem add_then_subtract uid pid q w d :
  db w = Some d ->
  quiet 4 (faults w) = true ->
  exists w1 w2 d2,
    add_to_cart (CartItemPayload.mk uid pid q) w = (inr true, w1) /\
    add_to_cart (CartItemPayload.mk uid pid (- q)) w1 = (inr true, w2) /\
    db w2 = Some d2 /\
    items_of uid d2
    = if existsb (has_product pid) (items_of uid d) then items_of uid d
      else items_of uid d ++ [Item.mk pid 0].
Proof.
  intros Hd Hq. apply quiet_succ in Hq as [H1 Hq].
  apply quiet_succ in Hq as [H2 Hq].
  set (b1 := CartItemPayload.mk uid pid q).
  set (b2 := CartItemPayload.mk uid pid (- q)).
  exists (served 2 w (added b1 d)),
    (served 2 (served 2 w (added b1 d)) (added b2 (added b1 d))),
    (added b2 (added b1 d)).
  split; [apply add_to_cart_served; [assumption|]; simpl; now rewrite H1, H2|].
  split; [apply add_to_cart_served; [reflexivity|exact Hq]|].
  split; [reflexivity|].
  assert (items_of uid (added b1 d) = upsert_product (items_of uid d) pid q) as E1.
  { unfold items_of at 1. change uid with (uid_of b1) at 1.
    now rewrite find_cart_added. }
  unfold items_of at 1. change uid with (uid_of b2) at 1.
  rewrite find_cart_added. simpl. unfold merged_items.
  change (uid_of b2) with uid. rewrite E1. apply upsert_product_undo.
Qed.

Lemma add_then_subtract_witness :
  exists w1 w2 d2,
    add_to_cart (CartItemPayload.mk "u1" "p9" 5) world_two = (inr true, w1) /\
    add_to_cart (CartItemPayload.mk "u1" "p9" (- 5)) w1 = (inr true, w2) /\
    db w2 = Some d2 /\
    items_of "u1" d2
    = if existsb (has_product "p9") (items_of "u1" store_two)
      then items_of "u1" store_two
      else items_of "u1" store_two ++ [Item.mk "p9" 0].
Proof.
  apply (add_then_subtract "u1" "p9" 5 world_two store_two); reflexivity.
Defined.

(** ** Orders in a row, and the cart an order leaves *)

Lemma create_order_served body w d :
  db w = Some d ->
  quiet 2 (faults w) = true ->
  create_order body w
  = (inr (OrderResponse.mk (str (next_oid d)) "new"),
     served 2 w (cleared (CreateOrderPayload.user_id body)
                   (ordered (order_of body) d))).
Proof.
  intros Hd Hq. apply quiet_two in Hq as [H1 H2].
  now rewrite create_order_run, Hd, H1, H2.
Qed.

(** Clearing a cart that is already empty leaves the cart collection as
    it is. *)
Lemma cleared_again uid o1 o2 d :
  cart (cleared uid (ordered o2 (cleared uid (ordered o1 d))))
  = cart (cleared uid (ordered o1 d)).
Proof.
  set (d1 := cleared uid (ordered o1 d)).
  destruct (find_cart_cleared uid (ordered o1 d)) as (i & Hi). fold d1 in Hi.
  destruct (update_cart_clear uid (ordered o2 d1)) as (_ & _ & A).
  change (cart (ordered o2 d1)) with (cart d1) in A. rewrite Hi in A.
  destruct A as (pre & post & E & _ & _ & _ & ->). now rewrite E.
Qed.

(** X6. [create_order] has no idempotency key: the same request served
    twice returns twice, and the order collection gains two documents
    with the content of the request, each under the identifier its
    response carries; the second request finds the cart empty and leaves
    the carts as the first left them. *)
Theorem create_order_twice body w d :
  db w = Some d ->
  quiet 4 (faults w) = true ->
  exists w1 w2 d1 d2 i1 i2,
    create_order body w = (inr (OrderResponse.mk (str i1) "new"), w1) /\
    create_order body w1 = (inr (OrderResponse.mk (str i2) "new"), w2) /\
    db w1 = Some d1 /\
    db w2 = Some d2 /\
    order d1 = order d ++ [OrderDoc.mk i1 (order_of body)] /\
    order d2 = order d ++ [OrderDoc.mk i1 (order_of body);
                           OrderDoc.mk i2 (order_of body)] /\
    cart d2 = cart d1.
Proof.
  intros Hd Hq. apply quiet_succ in Hq as [H1 Hq].
  apply quiet_succ in Hq as [H2 Hq].
  set (u := CreateOrderPayload.user_id body).
  set (d1 := cleared u (ordered (order_of body) d)).
  exists (served 2 w d1),
    (served 2 (served 2 w d1) (cleared u (ordered (order_of body) d1))),
    d1, (cleared u (ordered (order_of body) d1)), (next_oid d), (next_oid d1).
  split; [apply create_order_served; [assumption|]; simpl; now rewrite H1, H2|].
  split; [apply create_order_served; [reflexivity|exact Hq]|].
  split; [reflexivity|]. split; [reflexivity|].
  assert (order d1 = order d ++ [OrderDoc.mk (next_oid d) (order_of body)]) as E1.
  { unfold d1. destruct (update_cart_clear u (ordered (order_of body) d))
      as (_ & -> & _). reflexivity. }
  split; [exact E1|]. split.
  - destruct (update_cart_clear u (ordered (order_of body) d1)) as (_ & -> & _).
    unfold ordered. simpl. rewrite E1, <- app_assoc. reflexivity.
  - apply cleared_again.
Qed.

Lemma create_order_twice_witness :
  exists w1 w2 d1 d2 i1 i2,
    create_order u1_order world_u1 = (inr (OrderResponse.mk (str i1) "new"), w1) /\
    create_order u1_order w1 = (inr (OrderResponse.mk (str i2) "new"), w2) /\
    db w1 = Some d1 /\
    db w2 = Some d2 /\
    order d1 = order store_u1 ++ [OrderDoc.mk i1 (order_of u1_order)] /\
    order d2 = order store_u1 ++ [OrderDoc.mk i1 (order_of u1_order);
                                  OrderDoc.mk i2 (order_of u1_order)] /\
    cart d2 = cart d1.
Proof.
  apply (create_order_twice u1_order world_u1 store_u1); reflexivity.
Defined.

(** X7. What [create_order] does to the carts: a user with a cart
    document keeps the document, emptied, under its identifier; a user
    without one gets an empty document (the write is an upsert); the
    carts of the other users are what they were, whatever lines the
    order carries. *)
Theorem create_order_cart_frame body w resp w' :
  create_order body w = (inr resp, w') ->
  exists d d',
    db w = Some d /\ db w' = Some d' /\
    find_cart (CreateOrderPayload.user_id body) (cart d')
    = Some (CartDoc.mk
              match find_cart (CreateOrderPayload.user_id body) (cart d) with
              | Some c => CartDoc._id c
              | None => N.succ (next_oid d)
              end
              (CreateOrderPayload.user_id body) []) /\
    (forall v,
        v <> CreateOrderPayload.user_id body ->
        find_cart v (cart d') = find_cart v (cart d)).
Proof.
  intros H. destruct (create_order_returns body w resp w' H) as (d & Hd & -> & ->).
  set (u := CreateOrderPayload.user_id body).
  exists d, (cleared u (ordered (order_of body) d)).
  split; [assumption|]. split; [reflexivity|]. split.
  - destruct (update_cart_clear u (ordered (order_of body) d)) as (_ & _ & A).
    change (cart (ordered (order_of body) d)) with (cart d) in A.
    change (next_oid (ordered (order_of body) d)) with (N.succ (next_oid d)) in A.
    destruct (find_cart u (cart d)) as [c|] eqn:F.
    + destruct A as (pre & post & _ & Hpre & Hc & _ & ->).
      rewrite (find_cart_skip _ _ _ Hpre), Hc. now apply find_cart_head.
    + destruct A as (_ & ->). apply find_cart_none in F.
      rewrite (find_cart_skip _ _ _ F). now apply find_cart_head.
  - intros v Hv. now rewrite find_cart_cleared_other.
Qed.

Lemma create_order_cart_frame_witness :
  exists d d',
    db world_two = Some d /\
    db (served 2 world_two
          (cleared "u3"
             (ordered (order_of (CreateOrderPayload.mk "u3" [] 0%float "cod" []))
                store_two)))
    = Some d' /\
    find_cart "u3" (cart d')
    = Some (CartDoc.mk
              match find_cart "u3" (cart d) with
              | Some c => CartDoc._id c
              | None => N.succ (next_oid d)
              end
              "u3" []) /\
    (forall v, v <> "u3" -> find_cart v (cart d') = find_cart v (cart d)).
Proof.
  apply (create_order_cart_frame (CreateOrderPayload.mk "u3" [] 0%float "cod" [])
           world_two (OrderResponse.mk (str 2%N) "new")
           (served 2 world_two
              (cleared "u3"
                 (ordered (order_of (CreateOrderPayload.mk "u3" [] 0%float "cod" []))
                    store_two)))).
  reflexivity.
Defined.

(** ** Every interleaving of two requests *)

Section Race.
Variables (b1 b2 : CartItemPayload.t) (d : Database).
Hypothesis same_user : CartItemPayload.user_id b2 = CartItemPayload.user_id b1.
Hypothesis no_cart : find_cart (CartItemPayload.user_id b1) (cart d) = None.

Let u := CartItemPayload.user_id b1.

Lemma race_find_none : find_one u (calm d) = (inr None, calm d).
Proof.
  unfold find_one, store_call, calm. simpl. fold u in no_cart.
  now rewrite no_cart.
Qed.

Lemma find_cart_with_cart its :
  find_cart u (cart (with_cart d u its))
  = Some (CartDoc.mk (next_oid d) u its).
Proof.
  unfold with_cart. simpl. fold u in no_cart. apply find_cart_none in no_cart.
  rewrite (find_cart_skip _ _ _ no_cart). now apply find_cart_head.
Qed.

Lemma race_find_some its :
  find_one u (calm (with_cart d u its))
  = (inr (Some (CartDoc.mk (next_oid d) u its)), calm (with_cart d u its)).
Proof.
  unfold find_one, store_call, calm. cbn [db faults next_fault tl].
  now rewrite find_cart_with_cart.
Qed.

(** A write made from an empty read, on the store as it was read. *)
Lemma race_write_first b :
  CartItemPayload.user_id b = u ->
  update_one u (set_of_cart (merged_cart None b)) (calm d)
  = (inr tt, calm (with_cart d u [line_of b])).
Proof.
  intros Hb. unfold update_one, store_call, calm. cbn [db faults next_fault tl].
  fold u in no_cart. apply find_cart_none in no_cart.
  pose proof (update_cart_absent b d) as E. unfold uid_of in E.
  rewrite Hb in E. now rewrite (E no_cart).
Qed.

(** A write made from an empty read, after the other request wrote: it
    replaces the lines of the other request. *)
Lemma race_write_stale b its :
  CartItemPayload.user_id b = u ->
  update_one u (set_of_cart (merged_cart None b)) (calm (with_cart d u its))
  = (inr tt, calm (with_cart d u [line_of b])).
Proof.
  intros Hb. unfold update_one, store_call, calm. cbn [db faults next_fault tl].
  fold u in no_cart. apply find_cart_none in no_cart.
  unfold update_cart, with_cart at 1. cbn [cart].
  rewrite (update_first_split u _ (cart d) (CartDoc.mk (next_oid d) u its) []
             no_cart eq_refl).
  unfold apply_set, set_of_cart, merged_cart. simpl. now rewrite Hb.
Qed.

(** A write made from a read of what the other request wrote: it merges. *)
Lemma race_write_seen b its :
  CartItemPayload.user_id b = u ->
  update_one u
    (set_of_cart (merged_cart (Some (CartDoc.mk (next_oid d) u its)) b))
    (calm (with_cart d u its))
  = (inr tt,
     calm (with_cart d u
             (upsert_product its (CartItemPayload.product_id b)
                (CartItemPayload.qty b)))).
Proof.
  intros Hb. unfold update_one, store_call, calm. cbn [db faults next_fault tl].
  fold u in no_cart. apply find_cart_none in no_cart.
  unfold update_cart, with_cart at 1. cbn [cart].
  rewrite (update_first_split u _ (cart d) (CartDoc.mk (next_oid d) u its) []
             no_cart eq_refl).
  unfold apply_set, set_of_cart, merged_cart, dict_of_doc. simpl.
  now rewrite N.eqb_refl.
Qed.

Lemma race_step1 t1 t2 s :
  race b1 b2 d t1 t2 s ->
  exists t1' s', thread_step t1 (calm s) = (t1', calm s') /\ race b1 b2 d t1' t2 s'.
Proof.
  intros R. destruct R; cbn [thread_step]; fold u.
  - rewrite race_find_none. eexists _, _. split; [reflexivity|constructor].
  - rewrite (race_write_first b1 eq_refl). eexists _, _.
    split; [reflexivity|constructor].
  - rewrite race_find_none. eexists _, _. split; [reflexivity|constructor].
  - rewrite (race_write_first b1 eq_refl). eexists _, _.
    split; [reflexivity|constructor].
  - eexists _, _. split; [reflexivity|constructor].
  - rewrite race_find_some. eexists _, _. split; [reflexivity|constructor].
  - eexists _, _. split; [reflexivity|constructor].
  - rewrite (race_write_stale b1 _ eq_refl). eexists _, _.
    split; [reflexivity|]. constructor. simpl. tauto.
  - eexists _, _. split; [reflexivity|constructor].
  - rewrite (race_write_seen b1 _ eq_refl). eexists _, _.
    split; [reflexivity|]. constructor. simpl. tauto.
  - eexists _, _. split; [reflexivity|]. now constructor.
Qed.

Lemma race_step2 t1 t2 s :
  race b1 b2 d t1 t2 s ->
  exists t2' s', thread_step t2 (calm s) = (t2', calm s') /\ race b1 b2 d t1 t2' s'.
Proof.
  intros R. destruct R; cbn [thread_step]; rewrite ?same_user; fold u.
  - rewrite race_find_none. eexists _, _. split; [reflexivity|constructor].
  - rewrite race_find_none. eexists _, _. split; [reflexivity|constructor].
  - rewrite (race_write_first b2 same_user). eexists _, _.
    split; [reflexivity|constructor].
  - rewrite (race_write_first b2 same_user). eexists _, _.
    split; [reflexivity|constructor].
  - rewrite race_find_some. eexists _, _. split; [reflexivity|constructor].
  - eexists _, _. split; [reflexivity|constructor].
  - rewrite (race_write_stale b2 _ same_user). eexists _, _.
    split; [reflexivity|]. constructor. simpl. tauto.
  - eexists _, _. split; [reflexivity|constructor].
  - rewrite (race_write_seen b2 _ same_user). eexists _, _.
    split; [reflexivity|]. constructor. simpl. tauto.
  - eexists _, _. split; [reflexivity|constructor].
  - eexists _, _. split; [reflexivity|]. now constructor.
Qed.

Lemma race_interleave sched : forall t1 t2 s t1' t2' w',
  race b1 b2 d t1 t2 s ->
  interleave sched t1 t2 (calm s) = (t1', t2', w') ->
  exists s', w' = calm s' /\ race b1 b2 d t1' t2' s'.
Proof.
  induction sched as [|[] l IH]; intros t1 t2 s t1' t2' w' R; simpl.
  - intros [= <- <- <-]. now exists s.
  - destruct (race_step2 t1 t2 s R) as (t & s1 & -> & R'). now apply IH.
  - destruct (race_step1 t1 t2 s R) as (t & s1 & -> & R'). now apply IH.
Qed.
End Race.

(** X8. Two [add_to_cart] requests of one user, served at once on a store
    without a cart of the user: whatever the order in which their store
    calls reach the store, when both are done both have returned, the
    user has one cart document, and its lines are one of four lists: one
    request merged into the other (either way round), or the line of the
    request that wrote last alone, the other one lost. *)
Theorem concurrent_adds_outcomes b1 b2 d sched r1 r2 w' :
  CartItemPayload.user_id b2 = CartItemPayload.user_id b1 ->
  find_cart (CartItemPayload.user_id b1) (cart d) = None ->
  interleave sched (Ready b1) (Ready b2) (calm d)
  = (Returned r1, Returned r2, w') ->
  r1 = inr true /\ r2 = inr true /\
  exists its,
    In its (race_outcomes b1 b2) /\
    w' = calm (with_cart d (CartItemPayload.user_id b1) its) /\
    items_of (CartItemPayload.user_id b1)
      (with_cart d (CartItemPayload.user_id b1) its) = its.
Proof.
  intros Hu Hn H.
  destruct (race_interleave b1 b2 d Hu Hn sched _ _ d _ _ _
              (race_start b1 b2 d) H) as (s' & -> & R).
  inversion R as [| | | | | | | | | |its Hin]; subst.
  split; [reflexivity|]. split; [reflexivity|].
  exists its. split; [exact Hin|]. split; [reflexivity|].
  unfold items_of. now rewrite (find_cart_with_cart b1 d Hn).
Qed.

Lemma concurrent_adds_outcomes_witness :
  @inr exn bool true = inr true /\ @inr exn bool true = inr true /\
  exists its,
    In its (race_outcomes one_p1 one_p1) /\
    calm (with_cart empty_db "u1" [Item.mk "p1" 1])
    = calm (with_cart empty_db "u1" its) /\
    items_of "u1" (with_cart empty_db "u1" its) = its.
Proof.
  apply (concurrent_adds_outcomes one_p1 one_p1 empty_db
           [false; true; false; true] (inr true) (inr true)
           (calm (with_cart empty_db "u1" [Item.mk "p1" 1])));
    reflexivity.
Defined.

(** * Accounts *)

Example register_login_example :
  fst (login toy_hash (LoginPayload.mk "ana@example.com" "s3cret")
         (snd (register toy_hash ana (empty_site []))))
  = inr (LoginResponse.mk (str 0%N) "ana@example.com" "Ana" "buyer").
Proof. reflexivity. Qed.

Section AuthFacts.
Variable _hash : string -> string.

Lemma register_run body s :
  register _hash body s =
  match db (core s) with
  | None => (inl (HTTPException 500 "Database not configured"), s)
  | Some d =>
      if next_fault (faults (core s)) then
        (inl (Raised StoreUnavailable), site_after s d (user s))
      else
        match find_user (RegisterPayload.email body) (user s) with
        | Some _ =>
            (inl (HTTPException 400 "Email already registered"),
             site_after s d (user s))
        | None =>
            if next_fault (tl (faults (core s))) then
              (inl (Raised StoreUnavailable),
               site_after (site_after s d (user s)) d (user s))
            else
              (inr (RegisterResponse.mk (str (next_oid d))
                      (RegisterPayload.email body) (RegisterPayload.name body)),
               site_after (site_after s d (user s))
                 {| cart := cart d; order := order d;
                    next_oid := N.succ (next_oid d) |}
                 (user s ++ [UserDoc.mk (next_oid d)
                               (UserSchema (RegisterPayload.email body)
                                  (_hash (RegisterPayload.password body))
                                  (RegisterPayload.name body))]))
        end
  end.
Proof.
  unfold register, find_one_user, create_user_document.
  destruct (db (core s)) as [d|]; [|reflexivity].
  destruct (next_fault (faults (core s))); [reflexivity|].
  destruct (find_user (RegisterPayload.email body) (user s)); [reflexivity|].
  cbn [site_after core db faults user].
  destruct (next_fault (tl (faults (core s)))); reflexivity.
Qed.

Lemma login_run body s :
  login _hash body s =
  match db (core s) with
  | None => (inl (HTTPException 500 "Database not configured"), s)
  | Some d =>
      if next_fault (faults (core s)) then
        (inl (Raised StoreUnavailable), site_after s d (user s))
      else
        match find_user (LoginPayload.email body) (user s) with
        | None =>
            (inl (HTTPException 401 "Invalid credentials"),
             site_after s d (user s))
        | Some u =>
            if String.eqb (User.password_hash (UserDoc.body u))
                 (_hash (LoginPayload.password body))
            then
              (inr (LoginResponse.mk (str (UserDoc._id u))
                      (User.email (UserDoc.body u))
                      (User.name (UserDoc.body u))
                      (User.role (UserDoc.body u))),
               site_after s d (user s))
            else
              (inl (HTTPException 401 "Invalid credentials"),
               site_after s d (user s))
        end
  end.
Proof.
  unfold login, find_one_user.
  destruct (db (core s)) as [d|]; [|reflexivity].
  destruct (next_fault (faults (core s))); [reflexivity|].
  destruct (find_user (LoginPayload.email body) (user s)) as [u|]; [|reflexivity].
  destruct (String.eqb (User.password_hash (UserDoc.body u))
              (_hash (LoginPayload.password body))); reflexivity.
Qed.

Lemma find_user_app email us l x :
  find_user email us = Some x -> find_user email (us ++ l) = Some x.
Proof.
  unfold find_user. induction us as [|a r IH]; simpl; [discriminate|].
  destruct (String.eqb (User.email (UserDoc.body a)) email); auto.
Qed.

Lemma find_user_snoc email us x :
  find_user email us = None ->
  User.email (UserDoc.body x) = email ->
  find_user email (us ++ [x]) = Some x.
Proof.
  unfold find_user. intros Hn Hx. induction us as [|a r IH]; simpl in *.
  - rewrite Hx. now rewrite String.eqb_refl.
  - destruct (String.eqb (User.email (UserDoc.body a)) email);
      [discriminate|auto].
Qed.

Lemma find_user_none email us :
  find_user email us = None ->
  ~ In email (map (fun x => User.email (UserDoc.body x)) us).
Proof.
  unfold find_user. induction us as [|a r IH]; simpl; [tauto|].
  destruct (String.eqb_spec (User.email (UserDoc.body a)) email) as [E|N];
    [discriminate|].
  intros H [E|I]; [contradiction|now apply IH].
Qed.

(** X9. Registering and logging in: on a site where the e-mail is not
    taken, [register] returns the identifier of the new user, and a
    [login] with the same e-mail and password that follows returns that
    identifier with the name given and the role ["buyer"]; a [login]
    with a password of another digest is refused with 401. *)
Theorem register_then_login body s d :
  db (core s) = Some d ->
  quiet 3 (faults (core s)) = true ->
  find_user (RegisterPayload.email body) (user s) = None ->
  exists s1,
    register _hash body s
    = (inr (RegisterResponse.mk (str (next_oid d)) (RegisterPayload.email body)
              (RegisterPayload.name body)),
       s1) /\
    (exists s2,
        login _hash
          (LoginPayload.mk (RegisterPayload.email body)
             (RegisterPayload.password body)) s1
        = (inr (LoginResponse.mk (str (next_oid d)) (RegisterPayload.email body)
                  (RegisterPayload.name body) "buyer"),
           s2)) /\
    (forall pw,
        _hash pw <> _hash (RegisterPayload.password body) ->
        exists s2,
          login _hash (LoginPayload.mk (RegisterPayload.email body) pw) s1
          = (inl (HTTPException 401 "Invalid credentials"), s2)).
Proof.
  intros Hd Hq Hn. apply quiet_succ in Hq as [H1 Hq].
  apply quiet_succ in Hq as [H2 Hq]. apply quiet_succ in Hq as [H3 _].
  eexists. split.
  { rewrite register_run, Hd, H1, Hn, H2. reflexivity. }
  set (x := UserDoc.mk (next_oid d)
              (UserSchema (RegisterPayload.email body)
                 (_hash (RegisterPayload.password body))
                 (RegisterPayload.name body))).
  assert (find_user (RegisterPayload.email body) (user s ++ [x]) = Some x) as Hx.
  { now apply find_user_snoc. }
  split.
  - eexists. rewrite login_run. cbn [site_after core db faults user LoginPayload.email LoginPayload.password].
    rewrite H3. fold x. rewrite Hx. simpl. rewrite String.eqb_refl. reflexivity.
  - intros pw Hpw. eexists. rewrite login_run.
    cbn [site_after core db faults user LoginPayload.email LoginPayload.password].
    rewrite H3. fold x. rewrite Hx. simpl.
    destruct (String.eqb_spec (_hash (RegisterPayload.password body)) (_hash pw))
      as [E|N]; [congruence|reflexivity].
Qed.
End AuthFacts.

Lemma register_then_login_witness :
  exists s1,
    register toy_hash ana (empty_site [])
    = (inr (RegisterResponse.mk (str 0%N) "ana@example.com" "Ana"), s1) /\
    (exists s2,
        login toy_hash (LoginPayload.mk "ana@example.com" "s3cret") s1
        = (inr (LoginResponse.mk (str 0%N) "ana@example.com" "Ana" "buyer"),
           s2)) /\
    (forall pw,
        toy_hash pw <> toy_hash "s3cret" ->
        exists s2,
          login toy_hash (LoginPayload.mk "ana@example.com" pw) s1
          = (inl (HTTPException 401 "Invalid credentials"), s2)).
Proof.
  apply (register_then_login toy_hash ana (empty_site []) empty_db);
    reflexivity.
Defined.

Section AccountInvariants.
Variable _hash : string -> string.

(** What a request does to the users and to the store of the cart and
    order handlers. *)
Lemma serve_register body s :
  let s' := serve _hash (Register body) s in
  (user s' = user s /\ db (core s') = db (core s)) \/
  (find_user (RegisterPayload.email body) (user s) = None /\
   exists d,
     db (core s) = Some d /\
     user s' = user s ++ [UserDoc.mk (next_oid d)
                            (UserSchema (RegisterPayload.email body)
                               (_hash (RegisterPayload.password body))
                               (RegisterPayload.name body))] /\
     db (core s')
     = Some {| cart := cart d; order := order d;
               next_oid := N.succ (next_oid d) |}).
Proof.
  simpl. rewrite register_run. destruct (db (core s)) as [d|] eqn:Hd.
  - destruct (next_fault (faults (core s))); [now left|].
    destruct (find_user (RegisterPayload.email body) (user s)) eqn:F;
      [now left|].
    destruct (next_fault (tl (faults (core s)))); [now left|].
    right. split; [reflexivity|]. now exists d.
  - left. now split.
Qed.

Lemma serve_login body s :
  user (serve _hash (Login body) s) = user s /\
  db (core (serve _hash (Login body) s)) = db (core s).
Proof.
  simpl. rewrite login_run. destruct (db (core s)) as [d|] eqn:Hd.
  - destruct (next_fault (faults (core s))); [now split|].
    destruct (find_user (LoginPayload.email body) (user s)) as [u|];
      [|now split].
    destruct (String.eqb _ _); now split.
  - now split.
Qed.

Lemma serve_users r s : exists l, user (serve _hash r s) = user s ++ l.
Proof.
  destruct r as [b|b|o].
  - destruct (serve_register b s) as [[-> _]|(_ & d & _ & -> & _)].
    + exists []. now rewrite app_nil_r.
    + eexists. reflexivity.
  - destruct (serve_login b s) as [-> _]. exists []. now rewrite app_nil_r.
  - exists []. simpl. now rewrite app_nil_r.
Qed.

Lemma serve_configured r s d :
  db (core s) = Some d -> exists d', db (core (serve _hash r s)) = Some d'.
Proof.
  intros Hd. destruct r as [b|b|o].
  - destruct (serve_register b s) as [[_ ->]|(_ & d0 & _ & _ & ->)]; eauto.
  - destruct (serve_login b s) as [_ ->]. eauto.
  - simpl. destruct (exec_effect o (core s) d Hd) as (d' & -> & _). eauto.
Qed.

Section SiteInvariant.
Variable J : Site -> Prop.
Hypothesis J_serve : forall r s, J s -> J (serve _hash r s).

Lemma serve_all_keeps rs : forall s, J s -> J (serve_all _hash rs s).
Proof.
  induction rs as [|r l IH]; intros s Hs; simpl; [exact Hs|].
  apply IH. now apply J_serve.
Qed.
End SiteInvariant.

Lemma registered_stays email x rs : forall s d,
  db (core s) = Some d ->
  find_user email (user s) = Some x ->
  find_user email (user (serve_all _hash rs s)) = Some x /\
  exists d', db (core (serve_all _hash rs s)) = Some d'.
Proof.
  induction rs as [|r l IH]; intros s d Hd Hx; simpl.
  - split; [exact Hx|]. now exists d.
  - destruct (serve_configured r s d Hd) as (d1 & Hd1).
    apply (IH _ d1 Hd1). destruct (serve_users r s) as (l0 & ->).
    now apply find_user_app.
Qed.

(** X10. An e-mail is registered once: after a [register] that returned,
    and whatever requests came in between, a [register] with the same
    e-mail whose store call is served is refused with 400, whatever
    password and name it carries, and adds no user. *)
Theorem email_registered_once body resp s s1 rs body' :
  register _hash body s = (inr resp, s1) ->
  RegisterPayload.email body' = RegisterPayload.email body ->
  next_fault (faults (core (serve_all _hash rs s1))) = false ->
  exists s2,
    register _hash body' (serve_all _hash rs s1)
    = (inl (HTTPException 400 "Email already registered"), s2) /\
    user s2 = user (serve_all _hash rs s1).
Proof.
  intros Hr He Hf.
  assert (exists d1 x,
             db (core s1) = Some d1 /\
             find_user (RegisterPayload.email body) (user s1) = Some x)
    as (d1 & x & Hd1 & Hx).
  { rewrite register_run in Hr. destruct (db (core s)) as [d|]; [|discriminate].
    destruct (next_fault (faults (core s))); [discriminate|].
    destruct (find_user (RegisterPayload.email body) (user s)) eqn:F;
      [discriminate|].
    destruct (next_fault (tl (faults (core s)))); [discriminate|].
    injection Hr as _ <-. eexists _, _. split; [reflexivity|].
    now apply find_user_snoc. }
  destruct (registered_stays _ x rs s1 d1 Hd1 Hx) as (Hx' & d' & Hd').
  eexists. rewrite register_run, Hd', Hf, He, Hx'. split; reflexivity.
Qed.

(** X11. A failed [login] does not tell an unknown e-mail from a wrong
    password: on one site, any two logins that fail raise the same
    exception and leave the same site. *)
Theorem login_failures_alike b1 b2 s e1 e2 s1 s2 :
  login _hash b1 s = (inl e1, s1) ->
  login _hash b2 s = (inl e2, s2) ->
  e1 = e2 /\ s1 = s2.
Proof.
  rewrite !login_run. destruct (db (core s)) as [d|].
  - destruct (next_fault (faults (core s))).
    + intros [= <- <-] [= <- <-]. now split.
    + intros A B.
      assert (forall b e s',
                 match find_user (LoginPayload.email b) (user s) with
                 | None =>
                     (inl (HTTPException 401 "Invalid credentials"),
                      site_after s d (user s))
                 | Some u =>
                     if String.eqb (User.password_hash (UserDoc.body u))
                          (_hash (LoginPayload.password b))
                     then
                       (inr (LoginResponse.mk (str (UserDoc._id u))
                               (User.email (UserDoc.body u))
                               (User.name (UserDoc.body u))
                               (User.role (UserDoc.body u))),
                        site_after s d (user s))
                     else
                       (inl (HTTPException 401 "Invalid credentials"),
                        site_after s d (user s))
                 end = (inl e, s') ->
                 e = HTTPException 401 "Invalid credentials" /\
                 s' = site_after s d (user s)) as K.
      { intros b e s'. destruct (find_user (LoginPayload.email b) (user s)) as [u|].
        - destruct (String.eqb _ _); [discriminate|].
          intros [= <- <-]. now split.
        - intros [= <- <-]. now split. }
      destruct (K _ _ _ A) as [-> ->]. destruct (K _ _ _ B) as [-> ->].
      now split.
  - intros [= <- <-] [= <- <-]. now split.
Qed.

Lemma emails_step r s :
  NoDup (emails s) -> NoDup (emails (serve _hash r s)).
Proof.
  unfold emails. intros H. destruct r as [b|b|o].
  - destruct (serve_register b s) as [[-> _]|(F & d & _ & -> & _)];
      [assumption|].
    rewrite map_app. simpl. apply NoDup_snoc; [assumption|].
    now apply find_user_none.
  - now destruct (serve_login b s) as [-> _].
  - assumption.
Qed.

(** X12. No two users share an e-mail: a site with distinct e-mails keeps
    them distinct over any sequence of account and cart requests, served
    or failed; the empty site first of all. *)
Theorem emails_unique rs :
  (forall s, NoDup (emails s) -> NoDup (emails (serve_all _hash rs s))) /\
  (forall fs, NoDup (emails (serve_all _hash rs (empty_site fs)))).
Proof.
  assert (forall s, NoDup (emails s) -> NoDup (emails (serve_all _hash rs s)))
    as A.
  { apply (serve_all_keeps (fun s => NoDup (emails s)) emails_step). }
  split; [exact A|]. intros fs. apply A. constructor.
Qed.

Lemma default_user_step r s :
  Forall default_user (user s) -> Forall default_user (user (serve _hash r s)).
Proof.
  intros H. destruct r as [b|b|o].
  - destruct (serve_register b s) as [[-> _]|(_ & d & _ & -> & _)];
      [assumption|].
    apply Forall_app. split; [assumption|]. repeat constructor.
  - now destruct (serve_login b s) as [-> _].
  - assumption.
Qed.

Lemma find_user_in email us x : find_user email us = Some x -> In x us.
Proof. unfold find_user. intros H. now apply find_some in H. Qed.

(** X13. No request makes a seller or an admin: on every site reached
    from the empty one, a [login] that returns reports the role
    ["buyer"]. *)
Theorem login_reports_buyer rs fs body resp s' :
  login _hash body (serve_all _hash rs (empty_site fs)) = (inr resp, s') ->
  LoginResponse.role resp = "buyer".
Proof.
  set (s := serve_all _hash rs (empty_site fs)).
  assert (Forall default_user (user s)) as Hs.
  { apply (serve_all_keeps (fun s => Forall default_user (user s))
             default_user_step). constructor. }
  rewrite login_run. destruct (db (core s)) as [d|]; [|discriminate].
  destruct (next_fault (faults (core s))); [discriminate|].
  destruct (find_user (LoginPayload.email body) (user s)) as [u|] eqn:F;
    [|discriminate].
  destruct (String.eqb _ _); [|discriminate].
  intros [= <- _]. simpl.
  apply find_user_in in F. rewrite Forall_forall in Hs.
  now destruct (Hs u F).
Qed.

Lemma cart_only_step (P : Database -> Prop) r s :
  (forall d n, P d -> P {| cart := cart d; order := order d; next_oid := n |}) ->
  (forall o d d', effect o d d' -> P d -> P d') ->
  site_holds P s -> site_holds P (serve _hash r s).
Proof.
  unfold site_holds. intros Hn He H. destruct r as [b|b|o].
  - destruct (serve_register b s) as [[_ E]|(_ & d & Hd & _ & E)];
      unfold holds in *; rewrite E.
    + assumption.
    + rewrite Hd in H. now apply Hn.
  - destruct (serve_login b s) as [_ E]. unfold holds in *. now rewrite E.
  - simpl. apply (exec_holds P any_op); [|exact I|assumption].
    intros o0 d d' _. apply He.
Qed.

(** X14. The account requests leave the carts alone: over any sequence
    of account and cart requests, served or failed, from the empty site,
    there is at most one cart document per user and no cart has two
    lines for one product. *)
Theorem carts_kept_among_accounts rs fs :
  site_holds one_cart_per_user (serve_all _hash rs (empty_site fs)) /\
  site_holds (lines unique_products) (serve_all _hash rs (empty_site fs)).
Proof.
  split.
  - apply (serve_all_keeps (site_holds one_cart_per_user)).
    + intros r s. apply cart_only_step.
      * intros d n H. exact H.
      * intros o d d'. apply one_cart_step. exact I.
    + constructor.
  - apply (serve_all_keeps (site_holds (lines unique_products))).
    + intros r s. apply cart_only_step.
      * intros d n H. exact H.
      * intros o d d'. apply unique_products_step. exact I.
    + constructor.
Qed.
End AccountInvariants.

Lemma email_registered_once_witness :
  exists s2,
    register toy_hash (RegisterPayload.mk "ana@example.com" "other" "Bea")
      (serve_all toy_hash
         [Shop (GetCart "u1"); Login (LoginPayload.mk "ana@example.com" "x")]
         (snd (register toy_hash ana (empty_site []))))
    = (inl (HTTPException 400 "Email already registered"), s2) /\
    user s2
    = user (serve_all toy_hash
              [Shop (GetCart "u1"); Login (LoginPayload.mk "ana@example.com" "x")]
              (snd (register toy_hash ana (empty_site [])))).
Proof.
  apply (email_registered_once toy_hash ana
           (RegisterResponse.mk (str 0%N) "ana@example.com" "Ana")
           (empty_site []) (snd (register toy_hash ana (empty_site [])))
           [Shop (GetCart "u1"); Login (LoginPayload.mk "ana@example.com" "x")]
           (RegisterPayload.mk "ana@example.com" "other" "Bea"));
    reflexivity.
Defined.

Lemma login_failures_alike_witness :
  HTTPException 401 "Invalid credentials" = HTTPException 401 "Invalid credentials" /\
  site_after site_ana store_u1 (user site_ana)
  = site_after site_ana store_u1 (user site_ana).
Proof.
  apply (login_failures_alike toy_hash
           (LoginPayload.mk "ana@example.com" "wrong")
           (LoginPayload.mk "nobody@example.com" "s3cret") site_ana);
    reflexivity.
Defined.

Lemma emails_unique_witness :
  NoDup (emails (serve_all toy_hash [Register ana; Register ana] site_ana)).
Proof.
  apply (proj1 (emails_unique toy_hash [Register ana; Register ana]) site_ana).
  repeat constructor. simpl. tauto.
Defined.

Lemma login_reports_buyer_witness :
  LoginResponse.role
    (LoginResponse.mk (str 0%N) "ana@example.com" "Ana" "buyer") = "buyer".
Proof.
  apply (login_reports_buyer toy_hash [Register ana] []
           (LoginPayload.mk "ana@example.com" "s3cret")
           (LoginResponse.mk (str 0%N) "ana@example.com" "Ana" "buyer")
           (snd (login toy_hash (LoginPayload.mk "ana@example.com" "s3cret")
                   (serve_all toy_hash [Register ana] (empty_site []))))).
  reflexivity.
Defined.

(** * The catalogue *)

Lemma seed_loop_run ps : forall s d,
  db (core s) = Some d ->
  exists s' d',
    seed_loop ps s
    = ((if Nat.eqb (served_prefix (List.length ps) (faults (core s)))
             (List.length ps)
        then inr tt else inl (Raised StoreUnavailable)),
       s') /\
    product s'
    = product s
        ++ seeded (next_oid d)
             (firstn (served_prefix (List.length ps) (faults (core s))) ps) /\
    user s' = user s /\
    db (core s') = Some d' /\ cart d' = cart d /\ order d' = order d.
Proof.
  induction ps as [|p rest IH]; intros s d Hd.
  - exists s, d. simpl. rewrite app_nil_r. repeat split. exact Hd.
  - cbn [seed_loop List.length served_prefix]. unfold insert_one_product.
    rewrite Hd. destruct (next_fault (faults (core s))).
    + eexists _, d. split; [reflexivity|]. simpl. rewrite app_nil_r.
      repeat split.
    + set (s1 := {| core := _; user := user s; product := _ |}).
      destruct (IH s1 {| cart := cart d; order := order d;
                         next_oid := N.succ (next_oid d) |} eq_refl)
        as (s' & d' & E & Hp & Hu & Hd' & Hc & Ho).
      exists s', d'. split; [exact E|]. split; [|now repeat split].
      rewrite Hp. unfold s1. simpl. now rewrite <- app_assoc.
Qed.

(** X15. [seed_products] writes its products one by one and checks
    nothing: served in full it appends all of them once more and reports
    their number; when a write fails it raises, and the products written
    before stay in the store. *)
Theorem seed_products_stores_prefix s d :
  db (core s) = Some d ->
  exists s',
    seed_products s
    = ((if Nat.eqb (served_prefix 4 (faults (core s))) 4
        then inr 4 else inl (Raised StoreUnavailable)),
       s') /\
    product s'
    = product s
        ++ seeded (next_oid d) (firstn (served_prefix 4 (faults (core s))) sample) /\
    user s' = user s.
Proof.
  intros Hd. destruct (seed_loop_run sample s d Hd)
    as (s' & d' & E & Hp & Hu & _).
  exists s'. unfold seed_products, seed_products_of. rewrite Hd, E.
  change (List.length sample) with 4%nat.
  split; [|now split].
  destruct (Nat.eqb (served_prefix 4 (faults (core s))) 4); reflexivity.
Qed.

Lemma seed_products_stores_prefix_witness :
  exists s',
    seed_products {| core := {| db := Some store_u1; faults := [false; false; true] |};
                     user := []; product := [] |}
    = (inl (Raised StoreUnavailable), s') /\
    product s' = [] ++ seeded 1%N (firstn 2 sample) /\
    user s' = [].
Proof.
  apply (seed_products_stores_prefix
           {| core := {| db := Some store_u1; faults := [false; false; true] |};
              user := []; product := [] |} store_u1).
  reflexivity.
Defined.

Lemma sample_priced :
  Forall (fun p => PrimFloat.leb 0%float (Product.price p) = true) sample.
Proof. repeat constructor. Qed.

Lemma seeded_priced ps : forall oid,
  Forall (fun p => PrimFloat.leb 0%float (Product.price p) = true) ps ->
  Forall (fun x => PrimFloat.leb 0%float (Product.price (ProductDoc.body x)) = true)
    (seeded oid ps).
Proof.
  induction ps as [|p l IH]; intros oid H; simpl; [constructor|].
  inversion H; subst. constructor; [assumption|now apply IH].
Qed.

Lemma Forall_prefix {A} (P : A -> Prop) n l : Forall P l -> Forall P (firstn n l).
Proof.
  intros H. revert n. induction H as [|x l Hx _ IH]; intros [|n]; simpl;
    constructor; auto.
Qed.

Lemma product_served _hash r s : product (serve _hash r s) = product s.
Proof.
  destruct r as [b|b|o]; simpl.
  - rewrite register_run. destruct (db (core s)); [|reflexivity].
    destruct (next_fault (faults (core s))); [reflexivity|].
    destruct (find_user _ _); [reflexivity|].
    destruct (next_fault (tl (faults (core s)))); reflexivity.
  - rewrite login_run. destruct (db (core s)); [|reflexivity].
    destruct (next_fault (faults (core s))); [reflexivity|].
    destruct (find_user _ _); [|reflexivity].
    destruct (String.eqb _ _); reflexivity.
  - reflexivity.
Qed.

Lemma priced_step _hash r s : priced s -> priced (serve_catalogue _hash r s).
Proof.
  unfold priced. intros H. destruct r as [b| |r]; simpl.
  - unfold create_product. destruct (ProductSchema_valid b) eqn:V; [|assumption].
    unfold create_product_document, insert_one_product.
    destruct (db (core s)) as [d|]; [|assumption].
    destruct (next_fault (faults (core s))); [assumption|]. simpl.
    apply Forall_app. split; [assumption|]. repeat constructor. exact V.
  - destruct (db (core s)) as [d|] eqn:Hd.
    + destruct (seed_loop_run sample s d Hd) as (s' & d' & E & Hp & _).
      unfold seed_products, seed_products_of. rewrite Hd, E.
      assert (product s'
              = product s
                  ++ seeded (next_oid d)
                       (firstn (served_prefix (List.length sample)
                                  (faults (core s))) sample)) as Hp' by exact Hp.
      destruct (Nat.eqb _ _); simpl; rewrite Hp'; apply Forall_app;
        (split; [assumption|]);
        apply seeded_priced, Forall_prefix, sample_priced.
    + unfold seed_products, seed_products_of. now rewrite Hd.
  - now rewrite product_served.
Qed.

(** X16. Every product in the store has a price that is a number of at
    least zero: [create_product] takes only bodies the model accepts,
    the products of [seed_products] have such prices, and no other
    request writes a product.  This holds over any sequence of requests,
    served or failed. *)
Theorem prices_non_negative _hash rs :
  (forall s, priced s -> priced (serve_catalogue_all _hash rs s)) /\
  (forall fs, priced (serve_catalogue_all _hash rs (empty_site fs))).
Proof.
  assert (forall s, priced s -> priced (serve_catalogue_all _hash rs s)) as A.
  { induction rs as [|r l IH]; intros s Hs; simpl; [exact Hs|].
    apply IH. now apply priced_step. }
  split; [exact A|]. intros fs. apply A. constructor.
Qed.

Lemma prices_non_negative_witness :
  priced
    (serve_catalogue_all toy_hash
       [SeedProducts;
        CreateProduct (Product.mk "Refund" None (-5)%float "Pria" []
                         4.7%float 0 0 [] [] None None []);
        Other (Register ana)]
       {| core := world_u1; user := [];
          product := [ProductDoc.mk 0%N
                        (Product.mk "Scarf" None 0%float "Pria" [] 4.7%float
                           0 0 [] [] None None []) []] |}).
Proof.
  apply (proj1 (prices_non_negative toy_hash
                  [SeedProducts;
                   CreateProduct (Product.mk "Refund" None (-5)%float "Pria" []
                                    4.7%float 0 0 [] [] None None []);
                   Other (Register ana)])).
  repeat constructor.
Defined.

(** * The order of the lines *)

Lemma existsb_product_ids pid its :
  existsb (fun x => String.eqb x pid) (product_ids its)
  = existsb (has_product pid) its.
Proof.
  unfold product_ids, has_product.
  induction its as [|x l IH]; simpl; [reflexivity|]. now rewrite IH.
Qed.

Lemma product_ids_after uid o d :
  product_ids (items_of uid (after o d))
  = ids_step uid (product_ids (items_of uid d)) o.
Proof.
  destruct o as [u|b|b].
  - now rewrite (items_of_after uid (GetCart u) d I).
  - rewrite (items_of_after uid (AddItem b) d I). simpl.
    destruct (String.eqb (CartItemPayload.user_id b) uid); [|reflexivity].
    now rewrite upsert_product_ids, existsb_product_ids.
  - unfold ids_step.
    destruct (String.eqb_spec (CreateOrderPayload.user_id b) uid) as [E|N].
    + subst uid. cbn [after]. unfold items_of at 1.
      destruct (find_cart_cleared (CreateOrderPayload.user_id b)
                  (ordered (order_of b) d)) as (i & ->). reflexivity.
    + now rewrite (items_of_after uid (CreateOrder b) d N).
Qed.

(** X17. The lines of a cart stand in the order in which their products
    first arrived: over any sequence of served requests, the product ids
    of a user's cart are those it had, followed by the products the
    user's [add_to_cart] requests brought in, each once and in order of
    first request, and counted afresh after every order of the user.
    Quantities play no part in it. *)
Theorem lines_in_arrival_order uid ops : forall w d,
  db w = Some d ->
  faults w = [] ->
  exists d',
    db (run ops w) = Some d' /\
    product_ids (items_of uid d') = ids_after uid ops (product_ids (items_of uid d)).
Proof.
  induction ops as [|o l IH]; intros w d Hd Hf; simpl.
  - now exists d.
  - rewrite (exec_served o w d Hd Hf).
    destruct (IH {| db := Some (after o d); faults := [] |} (after o d)
                eq_refl eq_refl) as (d' & Hd' & E).
    exists d'. split; [exact Hd'|]. now rewrite E, product_ids_after.
Qed.

Lemma lines_in_arrival_order_witness :
  exists d',
    db (run [AddItem (CartItemPayload.mk "u1" "p3" 1);
             AddItem (CartItemPayload.mk "u1" "p1" 0);
             AddItem (CartItemPayload.mk "u2" "p5" 2);
             AddItem (CartItemPayload.mk "u1" "p3" 4)] world_two)
    = Some d' /\
    product_ids (items_of "u1" d')
    = ids_after "u1"
        [AddItem (CartItemPayload.mk "u1" "p3" 1);
         AddItem (CartItemPayload.mk "u1" "p1" 0);
         AddItem (CartItemPayload.mk "u2" "p5" 2);
         AddItem (CartItemPayload.mk "u1" "p3" 4)]
        (product_ids (items_of "u1" store_two)).
Proof.
  apply (lines_in_arrival_order "u1"
           [AddItem (CartItemPayload.mk "u1" "p3" 1);
            AddItem (CartItemPayload.mk "u1" "p1" 0);
            AddItem (CartItemPayload.mk "u2" "p5" 2);
            AddItem (CartItemPayload.mk "u1" "p3" 4)] world_two store_two);
    reflexivity.
Defined.
